(** * Resume ingestion pipeline: document parser and content validators

    A shallow embedding of [src/services/document_parser.py] (class
    [DocumentParser]) and [src/utils/validators.py], followed by the
    properties of the ingestion pipeline stated against that embedding.

    Conventions of the embedding.
    - A Python [str] is a list of Unicode code points ([str := list N]);
      [bytes] is a list of [byte].
    - The dictionaries [entities['personal_info']] and
      [entities['contact_info']] are finite maps from string keys to text.
    - A Python exception is the [Raise] constructor of [outcome]; an
      in-place update of the [entities] dictionary is explicit state
      passing, and the state survives a raised exception, as it does in
      Python.
    - The third-party libraries whose result depends on data that is not
      modelled (pdfplumber, PyPDF2, python-docx, the two NER models) are
      parameters: a record holds, for each of them, the outcome of the call.
    - Text extraction returns, with its result, the list of what it did:
      the records it sent to the logger and the extraction libraries it
      called, in order.  (The one logger call of [extract_entities] is
      left out.)
    - The functions of the Python runtime that the code calls ([str.lower],
      [str.strip], the [in] operator, [re.findall], [re.search],
      [bytes.decode]) are modelled by executable definitions.  The
      character tables of [lower], [\w] and [\d] are those of Unicode for
      the code points below U+0100; code points above are treated as
      caseless symbols that are neither digits nor word characters (which
      is what the bullet U+2022 and the en dash U+2013 are). *)

From Stdlib Require Import ZArith NArith Ascii Strings.Byte Lia Permutation.
From stdpp Require Import gmap strings list fin_maps.

Local Open Scope N_scope.

(** ** Python strings *)

Module Py.

Definition str := list N.

(** A string literal of the source, as code points (ASCII literals only). *)
Definition T (s : string) : str :=
  List.map N_of_ascii (String.list_ascii_of_string s).

(** [str.isspace] for one code point: the Unicode white space set. *)
Definition isspace (c : N) : bool :=
  ((9 <=? c) && (c <=? 13)) || ((28 <=? c) && (c <=? 32))
  || (c =? 133) || (c =? 160) || (c =? 5760)
  || ((8192 <=? c) && (c <=? 8202)) || (c =? 8232) || (c =? 8233)
  || (c =? 8239) || (c =? 8287) || (c =? 12288).

Fixpoint lstrip (s : str) : str :=
  match s with
  | c :: s' => if isspace c then lstrip s' else s
  | [] => []
  end.

Definition rstrip (s : str) : str := rev (lstrip (rev s)).

(** [s.strip()] *)
Definition strip (s : str) : str := rstrip (lstrip s).

(** Lower case of one code point: A-Z and the Latin-1 capitals except
    the multiplication sign.  This is [str.lower] on the code points
    below U+0100 and on caseless symbols; it is not Python's mapping of
    the cased letters above U+00FF (U+212A lowers to k, U+0130 to i and
    U+0307), so the properties that depend on it are stated for texts
    within [Notions.in_tables]. *)
Definition lower_cp (c : N) : N :=
  if ((65 <=? c) && (c <=? 90))
     || ((192 <=? c) && (c <=? 222) && negb (c =? 215))
  then c + 32 else c.

Definition upper_cp (c : N) : N :=
  if ((97 <=? c) && (c <=? 122))
     || ((224 <=? c) && (c <=? 254) && negb (c =? 247))
  then c - 32 else c.

(** [s.lower()] *)
Definition lower (s : str) : str := List.map lower_cp s.

Fixpoint startswith (p s : str) : bool :=
  match p, s with
  | [], _ => true
  | a :: p', b :: s' => (a =? b) && startswith p' s'
  | _ :: _, [] => false
  end.

(** [p in s] for two strings: [p] occurs as a contiguous substring. *)
Fixpoint contains (p s : str) : bool :=
  startswith p s ||
  match s with
  | [] => false
  | _ :: s' => contains p s'
  end.

(** [s.count(c)] for a one-character [c]. *)
Definition count (c : N) (s : str) : Z :=
  Z.of_nat (length (List.filter (fun d => d =? c) s)).

(** [len(s)] *)
Definition len {A} (s : list A) : Z := Z.of_nat (length s).

(** Truthiness of a string: non-empty. *)
Definition truthy (s : str) : bool :=
  match s with [] => false | _ => true end.

End Py.

Import Py.

(** ** Regular expressions of the [re] module

    The fragment of Python's pattern language that the source uses, with
    the semantics of the backtracking matcher: alternatives are tried left
    to right, repetitions are greedy, and the first path that succeeds is
    the match.  Capturing groups carry their Python number. *)

Module Re.

(** Items of a character set [[...]]. *)
Inductive citem :=
| One (c : N)
| Range (lo hi : N)
| Space          (* \s *)
| Digit.         (* \d *)

Inductive regex :=
| Lit (s : str)                               (* literal characters *)
| Chars (items : list citem)                   (* [...], \s, \d *)
| Seq (a b : regex)
| Alt (a b : regex)
| Rep (lo : nat) (hi : option nat) (r : regex) (* greedy r{lo,hi}; r+ r? *)
| Group (i : nat) (r : regex)                  (* capturing group number i *)
| Bound.                                       (* \b *)

Definition Plus (r : regex) : regex := Rep 1 None r.
Definition Star (r : regex) : regex := Rep 0 None r.
Definition Opt (r : regex) : regex := Rep 0 (Some 1%nat) r.
Definition Times (n : nat) (r : regex) : regex := Rep n (Some n) r.

(** Concatenation of a list of patterns. *)
Fixpoint cat (l : list regex) : regex :=
  match l with
  | [] => Lit []
  | [r] => r
  | r :: l' => Seq r (cat l')
  end.

(** Alternation of a non-empty list of patterns ([a|b|c]). *)
Fixpoint alts (l : list regex) : regex :=
  match l with
  | [] => Chars []
  | [r] => r
  | r :: l' => Alt r (alts l')
  end.

Fixpoint ngroups (r : regex) : nat :=
  match r with
  | Lit _ | Chars _ | Bound => 0
  | Seq a b | Alt a b => ngroups a + ngroups b
  | Rep _ _ a => ngroups a
  | Group _ a => S (ngroups a)
  end.

(** The code point of a one-character literal, and the ranges [A-Z],
    [a-z] and [0-9]. *)
Definition chr (s : string) : N := hd 0 (T s).
Definition AZ : citem := Range (chr "A") (chr "Z").
Definition az : citem := Range (chr "a") (chr "z").
Definition d09 : citem := Range (chr "0") (chr "9").

(** [\d] and [\w] on the code points below U+0100: the digits 0-9, and
    the alphanumeric code points and the underscore.  Python's classes
    also hold decimal digits and letters above U+00FF, which these tables
    leave out; the properties that depend on them are stated for texts
    within [Notions.in_tables]. *)
Definition isdigit (c : N) : bool := (48 <=? c) && (c <=? 57).


Definition isword (c : N) : bool :=
  isdigit c || ((65 <=? c) && (c <=? 90)) || ((97 <=? c) && (c <=? 122))
  || (c =? 95) || (c =? 170) || (c =? 178) || (c =? 179) || (c =? 181)
  || (c =? 185) || (c =? 186) || ((188 <=? c) && (c <=? 190))
  || ((192 <=? c) && (c <=? 214)) || ((216 <=? c) && (c <=? 246))
  || ((248 <=? c) && (c <=? 255)).

Definition in_item (c : N) (i : citem) : bool :=
  match i with
  | One d => c =? d
  | Range lo hi => (lo <=? c) && (c <=? hi)
  | Space => isspace c
  | Digit => isdigit c
  end.

(** Membership in a character set; under [re.IGNORECASE] a character also
    belongs to the set when one of its case variants does.  The variants
    are those of [lower_cp] and [upper_cp]: below U+0100 they are
    Python's, above it Python also pairs U+0130 and U+0131 with i, U+017F
    with s and U+212A with k. *)
Definition in_set (ic : bool) (items : list citem) (c : N) : bool :=
  existsb (in_item c) items
  || (ic && (existsb (in_item (lower_cp c)) items
             || existsb (in_item (upper_cp c)) items)).

(** A literal character against a character of the subject, with the
    same case variants as [in_set]. *)
Definition char_eq (ic : bool) (c d : N) : bool :=
  (c =? d) || (ic && (lower_cp c =? lower_cp d)).

(** The matcher's state: the character before the current position (for
    [\b]), the rest of the subject, and the groups captured so far (the
    most recent capture of a group first). *)
Record mstate := MState {
  prev : option N;
  rest : str;
  caps : list (nat * str)
}.

Definition word_before (s : mstate) : bool :=
  match prev s with Some c => isword c | None => false end.
Definition word_after (s : mstate) : bool :=
  match rest s with c :: _ => isword c | [] => false end.

(** Literal characters at the current position: the character before
    the position reached, and what is left of the subject. *)
Fixpoint lit_match (ic : bool) (l : str) (p : option N) (s : str)
    : option (option N * str) :=
  match l with
  | [] => Some (p, s)
  | a :: l' =>
      match s with
      | b :: s' => if char_eq ic a b then lit_match ic l' (Some b) s' else None
      | [] => None
      end
  end.

(** What was consumed between state [s] and the later state [s']. *)
Definition consumed (s s' : mstate) : str :=
  take (length (rest s) - length (rest s')) (rest s).

(** [m ic r k s]: match [r] at state [s] and continue with [k]; a
    failed continuation makes the matcher backtrack to the next
    alternative, or to a shorter repetition.  Once the minimum count is
    reached, a repetition does not start an iteration at the position
    where the previous iteration started (the matcher's guard against
    empty loops): every further iteration starts strictly later in the
    subject, so there are at most [lo + length (rest s) + 1] iterations,
    which is the fuel of the loop. *)
Fixpoint m (ic : bool) (r : regex) (k : mstate -> option mstate)
    (s : mstate) {struct r} : option mstate :=
  match r with
  | Lit l =>
      match lit_match ic l (prev s) (rest s) with
      | Some (p, s') => k (MState p s' (caps s))
      | None => None
      end
  | Chars items =>
      match rest s with
      | c :: s' => if in_set ic items c
                   then k (MState (Some c) s' (caps s)) else None
      | [] => None
      end
  | Seq a b => m ic a (m ic b k) s
  | Alt a b =>
      match m ic a k s with
      | Some s' => Some s'
      | None => m ic b k s
      end
  | Rep lo hi a =>
      (fix loop (fuel cnt : nat) (last : option nat) (s : mstate)
         {struct fuel} : option mstate :=
         match fuel with
         | O => if (lo <=? cnt)%nat then k s else None
         | S fuel' =>
             let below_max :=
               match hi with Some h => (cnt <? h)%nat | None => true end in
             let moved :=
               match last with
               | Some p => negb (p =? length (rest s))%nat
               | None => true
               end in
             if (cnt <? lo)%nat
             then m ic a (loop fuel' (S cnt) (Some (length (rest s)))) s
             else if below_max && moved
             then
               match m ic a (loop fuel' (S cnt) (Some (length (rest s)))) s with
               | Some s' => Some s'
               | None => k s
               end
             else k s
         end) (lo + length (rest s) + 1)%nat O None s
  | Group i a =>
      m ic a (fun s' =>
                k (MState (prev s') (rest s')
                          ((i, consumed s s') :: caps s'))) s
  | Bound =>
      if xorb (word_before s) (word_after s) then k s else None
  end.

(** A match: the whole matched text and the text of groups 1..n (the
    empty string for a group that did not take part, as [findall] reports
    it). *)
Record rmatch := RMatch {
  whole : str;
  groups : list str
}.

Fixpoint cap_lookup (i : nat) (cs : list (nat * str)) : str :=
  match cs with
  | [] => []
  | (j, t) :: cs' => if (i =? j)%nat then t else cap_lookup i cs'
  end.

(** The match of [r] that starts exactly at the current position. *)
Definition match_at (ic : bool) (r : regex) (p : option N) (s : str)
    : option rmatch :=
  let s0 := MState p s [] in
  match m ic r Some s0 with
  | Some s1 =>
      Some (RMatch (consumed s0 s1)
                   (List.map (fun i => cap_lookup i (caps s1))
                             (seq 1 (ngroups r))))
  | None => None
  end.

(** [re.search]: the match at the leftmost position that has one. *)
Fixpoint search_from (ic : bool) (r : regex) (p : option N) (s : str)
    : option rmatch :=
  match match_at ic r p s with
  | Some x => Some x
  | None =>
      match s with
      | [] => None
      | c :: s' => search_from ic r (Some c) s'
      end
  end.

Definition search (ic : bool) (r : regex) (s : str) : option rmatch :=
  search_from ic r None s.

(** The non-overlapping matches, left to right.  [skip] counts the
    positions still covered by the previous match.  (After an empty match
    the scan moves on by one character; none of the source's patterns
    matches the empty string.) *)
Fixpoint scan (ic : bool) (r : regex) (skip : nat) (p : option N) (s : str)
    : list rmatch :=
  let here := match skip with O => match_at ic r p s | S _ => None end in
  match here with
  | Some x =>
      x :: match s with
           | [] => []
           | c :: s' => scan ic r (pred (length (whole x))) (Some c) s'
           end
  | None =>
      match s with
      | [] => []
      | c :: s' => scan ic r (pred skip) (Some c) s'
      end
  end.

Definition finditer (ic : bool) (r : regex) (s : str) : list rmatch :=
  scan ic r 0 None s.

(** An element of the list [re.findall] returns: a string when the
    pattern has no group (the whole match) or one group (that group), a
    tuple of the groups otherwise. *)
Inductive item :=
| IStr (s : str)
| ITuple (l : list str).

Definition to_item (n : nat) (x : rmatch) : item :=
  match n with
  | O => IStr (whole x)
  | 1%nat => IStr (hd [] (groups x))
  | _ => ITuple (groups x)
  end.

(** [re.findall(pattern, s)], [ic] being the flag [re.IGNORECASE]. *)
Definition findall (ic : bool) (r : regex) (s : str) : list item :=
  List.map (to_item (ngroups r)) (finditer ic r s).

End Re.

(** ** [bytes.decode] *)

Module Codec.

(** The codecs named by the source. *)
Inductive encoding := utf_8 | latin_1 | cp1252 | iso_8859_1.

Definition is_continuation (b : N) : bool := (128 <=? b) && (b <=? 191).

(** The UTF-8 decoder, as a fold over the byte values: [emit] receives
    each decoded code point, [bad] is the error handler.  After an
    ill-formed sequence decoding resumes at the first byte that cannot
    belong to it; a sequence cut short by the end of the data is an error
    that reaches to the end. *)
Section Utf8.
Context {R : Type} (emit : N -> R -> R) (stop : R) (bad : R -> R).

Fixpoint utf8_fold (s : list N) : R :=
  match s with
  | [] => stop
  | b0 :: s1 =>
    if b0 <? 128 then emit b0 (utf8_fold s1)
    else if b0 <? 194 then bad (utf8_fold s1)
    else if b0 <? 224 then
      match s1 with
      | [] => bad stop
      | b1 :: s2 =>
        if is_continuation b1
        then emit ((b0 - 192) * 64 + (b1 - 128)) (utf8_fold s2)
        else bad (utf8_fold s1)
      end
    else if b0 <? 240 then
      match s1 with
      | [] => bad stop
      | b1 :: s2 =>
        if negb (is_continuation b1)
           || ((b0 =? 224) && (b1 <? 160))
           || ((b0 =? 237) && (160 <=? b1))
        then bad (utf8_fold s1)
        else
          match s2 with
          | [] => bad stop
          | b2 :: s3 =>
            if is_continuation b2
            then emit ((b0 - 224) * 4096 + (b1 - 128) * 64 + (b2 - 128))
                      (utf8_fold s3)
            else bad (utf8_fold s2)
          end
      end
    else if b0 <? 245 then
      match s1 with
      | [] => bad stop
      | b1 :: s2 =>
        if negb (is_continuation b1)
           || ((b0 =? 240) && (b1 <? 144))
           || ((b0 =? 244) && (144 <=? b1))
        then bad (utf8_fold s1)
        else
          match s2 with
          | [] => bad stop
          | b2 :: s3 =>
            if negb (is_continuation b2) then bad (utf8_fold s2)
            else
              match s3 with
              | [] => bad stop
              | b3 :: s4 =>
                if is_continuation b3
                then emit ((b0 - 240) * 262144 + (b1 - 128) * 4096
                           + (b2 - 128) * 64 + (b3 - 128))
                          (utf8_fold s4)
                else bad (utf8_fold s3)
              end
          end
      end
    else bad (utf8_fold s1)
  end.
End Utf8.

(** Windows-1252: the code point of a byte, [None] for the five bytes the
    codec leaves undefined. *)
Definition cp1252_char (b : N) : option N :=
  if (b <? 128) || (160 <=? b) then Some b
  else
    nth (N.to_nat (b - 128))
      [Some 8364; None; Some 8218; Some 402; Some 8222; Some 8230;
       Some 8224; Some 8225; Some 710; Some 8240; Some 352; Some 8249;
       Some 338; None; Some 381; None;
       None; Some 8216; Some 8217; Some 8220; Some 8221; Some 8226;
       Some 8211; Some 8212; Some 732; Some 8482; Some 353; Some 8250;
       Some 339; None; Some 382; Some 376] None.

Fixpoint cp1252_decode (s : list N) : option str :=
  match s with
  | [] => Some []
  | b :: s' =>
      match cp1252_char b, cp1252_decode s' with
      | Some c, Some t => Some (c :: t)
      | _, _ => None
      end
  end.

Definition values (content : list byte) : list N := List.map Byte.to_N content.

(** [content.decode(encoding)]: [None] stands for [UnicodeDecodeError]. *)
Definition decode (e : encoding) (content : list byte) : option str :=
  match e with
  | utf_8 =>
      utf8_fold (fun c r => match r with Some t => Some (c :: t) | None => None end)
                (Some []) (fun _ => None) (values content)
  | latin_1 | iso_8859_1 => Some (values content)
  | cp1252 => cp1252_decode (values content)
  end.

(** [content.decode('utf-8', errors='ignore')] *)
Definition decode_ignore (content : list byte) : str :=
  utf8_fold cons [] (fun r => r) (values content).

End Codec.

(** ** [src/services/document_parser.py] *)

Module DocumentParser.

Import Re Codec.

(** The result of a call: a value, or a raised exception with its
    message ([str(e)]). *)
Inductive outcome (A : Type) :=
| Ok (a : A)
| Raise (msg : str).
Arguments Ok {A} a.
Arguments Raise {A} msg.

(** What a run leaves behind: the records of [self.logger] and the calls
    into the extraction libraries, in order. *)
Inductive library := pdfplumber | PyPDF2 | python_docx | bytes_decode.

Inductive event :=
| Info (msg : str)
| Warning (msg : str)
| Error (msg : str)
| Called (l : library).

Definition is_call (e : event) : bool :=
  match e with Called _ => true | _ => false end.

(** *** The uploaded file and the document libraries *)

Record uploaded_file := UploadedFile {
  type_ : str;          (* uploaded_file.type, the declared media type *)
  data : list byte       (* what uploaded_file.read() returns *)
}.

(** A page of a PDF: [page.extract_text()] returns a string or [None],
    or raises. *)
Inductive page :=
| Page (page_text : option str)
| PageRaises (msg : str).

(** Opening a PDF gives its pages, or raises. *)
Inductive pdf :=
| Pages (ps : list page)
| OpenRaises (msg : str).

(** A DOCX document: the text of its paragraphs, and its tables as rows
    of cell texts. *)
Record document := Document {
  paragraphs : list str;
  tables : list (list (list str))
}.

Record libraries := Libraries {
  pdfplumber_open : list byte -> pdf;
  PyPDF2_PdfReader : list byte -> pdf;
  docx_Document : list byte -> outcome document
}.

Definition nl : str := [10].

(** The loop [for page in pages: page_text = page.extract_text();
    if page_text: text += page_text + newline]: the text accumulated, and the
    exception that interrupted the loop if one did. *)
Fixpoint read_pages (ps : list page) (text : str) : str * option str :=
  match ps with
  | [] => (text, None)
  | Page (Some page_text) :: ps' =>
      read_pages ps' (if truthy page_text then text ++ page_text ++ nl
                      else text)
  | Page None :: ps' => read_pages ps' text
  | PageRaises msg :: _ => (text, Some msg)
  end.

Definition read_pdf (d : pdf) (text : str) : str * option str :=
  match d with
  | Pages ps => read_pages ps text
  | OpenRaises msg => (text, Some msg)
  end.

Definition _extract_from_pdf (L : libraries) (f : uploaded_file)
    : outcome str * list event :=
  let text := [] in
  (* Method 1: pdfplumber *)
  let '(text, exn1) := read_pdf (pdfplumber_open L (data f)) text in
  match exn1, truthy (strip text) with
  | None, true => (Ok text, [Called pdfplumber])
  | _, _ =>
      let log1 :=
        match exn1 with
        | Some e => [Warning (T "pdfplumber failed: " ++ e
                              ++ T ", trying PyPDF2")]
        | None => []
        end in
      (* Method 2: PyPDF2 *)
      let '(text, exn2) := read_pdf (PyPDF2_PdfReader L (data f)) text in
      match exn2 with
      | Some e =>
          (Raise (T "Could not extract text from PDF"),
           Called pdfplumber :: log1
           ++ [Called PyPDF2; Error (T "PyPDF2 also failed: " ++ e)])
      | None => (Ok text, Called pdfplumber :: log1 ++ [Called PyPDF2])
      end
  end.

Definition paragraph_text (p : str) : str :=
  if truthy (strip p) then p ++ nl else [].

Definition cell_text (c : str) : str :=
  if truthy (strip c) then c ++ T " " else [].

Definition row_text (row : list str) : str :=
  concat (List.map cell_text row) ++ nl.

Definition _extract_from_docx (L : libraries) (f : uploaded_file)
    : outcome str * list event :=
  match docx_Document L (data f) with
  | Ok doc =>
      (Ok (concat (List.map paragraph_text (paragraphs doc))
           ++ concat (List.map (fun table => concat (List.map row_text table))
                               (tables doc))),
       [Called python_docx])
  | Raise e =>
      (Raise (T "DOCX extraction failed: " ++ e), [Called python_docx])
  end.

Definition encodings : list encoding := [utf_8; latin_1; cp1252; iso_8859_1].

(** The loop [for encoding in encodings: try: return content.decode(encoding)
    except UnicodeDecodeError: continue]. *)
Fixpoint try_encodings (encs : list encoding) (content : list byte)
    : option str :=
  match encs with
  | [] => None
  | e :: encs' =>
      match decode e content with
      | Some t => Some t
      | None => try_encodings encs' content
      end
  end.

Definition _extract_from_txt (f : uploaded_file) : outcome str * list event :=
  let content := data f in
  match try_encodings encodings content with
  | Some t => (Ok t, [Called bytes_decode])
  | None => (Ok (decode_ignore content), [Called bytes_decode])
  end.

Definition cross_mark : str := [10060].

Definition extract_content (L : libraries) (f : uploaded_file)
    : outcome str * list event :=
  let file_type := type_ f in
  let log0 := [Info (T "Processing file type: " ++ file_type)] in
  let '(r, log) :=
    if contains (T "application/pdf") file_type
    then _extract_from_pdf L f
    else if contains (T "wordprocessingml") file_type
            || contains (T "docx") file_type
    then _extract_from_docx L f
    else if contains (T "text/plain") file_type
    then _extract_from_txt f
    else (Raise (T "Unsupported file type: " ++ file_type), []) in
  match r with
  | Ok t => (Ok t, log0 ++ log)
  | Raise e =>
      (Raise (cross_mark ++ T " Content extraction failed: " ++ e),
       log0 ++ log ++ [Error (T "Content extraction failed: " ++ e)])
  end.

(** *** Entity extraction *)

(** An element of [entities['experience']]: the dictionary
    [{'role': ..., 'company': ...}]. *)
Record experience_entry := Experience {
  role : str;
  company : str
}.

(** The dictionary [entities] of [extract_entities]. *)
Record entities := Entities {
  personal_info : gmap string str;
  contact_info : gmap string str;
  skills : list str;
  experience : list experience_entry;
  education : list str;
  projects : list str;
  organizations : list str;
  locations : list str
}.

Definition empty_entities : entities :=
  Entities ∅ ∅ [] [] [] [] [] [].

Definition set_personal_info (k : string) (v : str) (e : entities) : entities :=
  Entities (<[k := v]> (personal_info e)) (contact_info e) (skills e)
           (experience e) (education e) (projects e) (organizations e)
           (locations e).

Definition set_contact_info (k : string) (v : str) (e : entities) : entities :=
  Entities (personal_info e) (<[k := v]> (contact_info e)) (skills e)
           (experience e) (education e) (projects e) (organizations e)
           (locations e).

Definition set_skills (v : list str) (e : entities) : entities :=
  Entities (personal_info e) (contact_info e) v (experience e) (education e)
           (projects e) (organizations e) (locations e).

Definition append_experience (x : experience_entry) (e : entities) : entities :=
  Entities (personal_info e) (contact_info e) (skills e) (experience e ++ [x])
           (education e) (projects e) (organizations e) (locations e).

Definition set_education (v : list str) (e : entities) : entities :=
  Entities (personal_info e) (contact_info e) (skills e) (experience e) v
           (projects e) (organizations e) (locations e).

Definition append_organization (x : str) (e : entities) : entities :=
  Entities (personal_info e) (contact_info e) (skills e) (experience e)
           (education e) (projects e) (organizations e ++ [x]) (locations e).

Definition append_location (x : str) (e : entities) : entities :=
  Entities (personal_info e) (contact_info e) (skills e) (experience e)
           (education e) (projects e) (organizations e) (locations e ++ [x]).

(** ['name' not in entities['personal_info']] *)
Definition name_missing (e : entities) : bool :=
  match personal_info e !! "name"%string with
  | None => true
  | Some _ => false
  end.

(** An element of the list the HuggingFace pipeline returns. *)
Record ner_entity := NerEntity {
  entity_group : string;
  word : str
}.

(** An element of [doc.ents] of spaCy. *)
Record span := Span {
  label_ : string;
  text : str
}.

(** [self]: the two models, [None] when they could not be loaded; a call
    of a model gives its result or raises. *)
Record parser := Parser {
  nlp : option (str -> outcome (list span));
  ner_pipeline : option (str -> outcome (list ner_entity))
}.

Definition process_ner_entity (e : entities) (entity : ner_entity) : entities :=
  let entity_type := entity_group entity in
  let entity_text := word entity in
  if String.eqb entity_type "PER" then
    if name_missing e then set_personal_info "name" entity_text e else e
  else if String.eqb entity_type "ORG" then append_organization entity_text e
  else if String.eqb entity_type "LOC" then append_location entity_text e
  else e.

Definition _process_ner_results (ner_results : list ner_entity) (e : entities)
    : entities :=
  fold_left process_ner_entity ner_results e.

Definition process_span (e : entities) (ent : span) : entities :=
  if String.eqb (label_ ent) "PERSON" && name_missing e
  then set_personal_info "name" (text ent) e
  else if String.eqb (label_ ent) "ORG"
  then append_organization (text ent) e
  else if String.eqb (label_ ent) "GPE" || String.eqb (label_ ent) "LOC"
  then append_location (text ent) e
  else e.

Definition _process_spacy_results (doc : list span) (e : entities) : entities :=
  fold_left process_span doc e.

(** The patterns of [_extract_with_regex]. *)

(* \b[A-Za-z0-9._%+-]+@[A-Za-z0-9.-]+\.[A-Z|a-z]{2,}\b *)
Definition email_pattern : regex :=
  cat [Bound;
       Plus (Chars [AZ; az; d09; One (chr "."); One (chr "_"); One (chr "%");
                    One (chr "+"); One (chr "-")]);
       Lit (T "@");
       Plus (Chars [AZ; az; d09; One (chr "."); One (chr "-")]);
       Lit (T ".");
       Rep 2 None (Chars [AZ; One (chr "|"); az]);
       Bound].

Definition sep : regex := Opt (Chars [One (chr "-"); Space]).

Definition phone_patterns : list regex :=
  [ (* (\+?1?[-\s]?)?\(?([0-9]{3})\)?[-\s]?([0-9]{3})[-\s]?([0-9]{4}) *)
    cat [Opt (Group 1 (cat [Opt (Lit (T "+")); Opt (Lit (T "1")); sep]));
         Opt (Lit (T "("));
         Group 2 (Times 3 (Chars [d09]));
         Opt (Lit (T ")")); sep;
         Group 3 (Times 3 (Chars [d09])); sep;
         Group 4 (Times 4 (Chars [d09]))];
    (* (\+?\d{1,3}[-\s]?)?\(?\d{3}\)?[-\s]?\d{3}[-\s]?\d{4} *)
    cat [Opt (Group 1 (cat [Opt (Lit (T "+"));
                            Rep 1 (Some 3%nat) (Chars [Digit]); sep]));
         Opt (Lit (T "("));
         Times 3 (Chars [Digit]);
         Opt (Lit (T ")")); sep;
         Times 3 (Chars [Digit]); sep;
         Times 4 (Chars [Digit])];
    (* \b\d{3}[-\.]\d{3}[-\.]\d{4}\b *)
    cat [Bound;
         Times 3 (Chars [Digit]); Chars [One (chr "-"); One (chr ".")];
         Times 3 (Chars [Digit]); Chars [One (chr "-"); One (chr ".")];
         Times 4 (Chars [Digit]);
         Bound] ].

Definition skill_keywords : list str :=
  List.map T
    ["Python"; "Java"; "JavaScript"; "React"; "Node.js"; "SQL"; "MongoDB";
     "Machine Learning"; "Data Science"; "AI"; "TensorFlow"; "PyTorch";
     "AWS"; "Docker"; "Kubernetes"; "Git"; "Linux"; "HTML"; "CSS";
     "Project Management"; "Leadership"; "Communication"; "Problem Solving";
     "Teamwork"; "Critical Thinking"; "Time Management"]%string.

Definition role_alternatives : regex :=
  alts (List.map (fun s => Lit (T s))
          ["Software Engineer"; "Data Scientist"; "Project Manager";
           "Developer"; "Analyst"; "Manager"; "Director"; "Lead"; "Senior";
           "Junior"]%string).

Definition company_chars : regex :=
  Plus (Chars [AZ; az; d09; Space; One (chr "&")]).

Definition en_dash : N := 8211.

Definition experience_patterns : list regex :=
  [ (* (Software Engineer|...|Junior)\s+at\s+([A-Za-z0-9\s&]+) *)
    cat [Group 1 role_alternatives; Plus (Chars [Space]); Lit (T "at");
         Plus (Chars [Space]); Group 2 company_chars];
    (* ([A-Za-z0-9\s&]+)\s*[-–]\s*(Software Engineer|...|Junior) *)
    cat [Group 1 company_chars; Star (Chars [Space]);
         Chars [One (chr "-"); One en_dash]; Star (Chars [Space]);
         Group 2 role_alternatives] ].

Definition education_keywords : list str :=
  List.map T
    ["Bachelor"; "Master"; "PhD"; "University"; "College"; "Institute";
     "Computer Science"; "Engineering"; "Business"; "Mathematics";
     "B.S."; "M.S."; "MBA"; "B.A."; "M.A."]%string.

(** Email extraction: [emails = re.findall(...)]; the first one is kept. *)
Definition extract_email (text : str) (e : entities) : entities :=
  match findall true email_pattern text with
  | IStr email :: _ => set_contact_info "email" email e
  | ITuple l :: _ => e
  | [] => e
  end.

(** Phone extraction: the first pattern that finds something decides;
    [''.join(phones[0])] when the element is a tuple of groups. *)
Fixpoint extract_phone (patterns : list regex) (text : str) (e : entities)
    : entities :=
  match patterns with
  | [] => e
  | pattern :: patterns' =>
      match findall false pattern text with
      | ITuple l :: _ => set_contact_info "phone" (concat l) e
      | IStr s :: _ => set_contact_info "phone" s e
      | [] => extract_phone patterns' text e
      end
  end.

(** [found_skills]: the keywords whose lower case occurs in the lower
    case of the text, in dictionary order. *)
Definition found_skills (text : str) : list str :=
  let text_lower := lower text in
  List.filter (fun skill => contains (lower skill) text_lower) skill_keywords.

(** The loop over [matches]: a tuple of two groups gives one entry. *)
Definition experience_of_match (x : item) : list experience_entry :=
  match x with
  | ITuple [role; company] => [Experience (strip role) (strip company)]
  | _ => []
  end.

Definition found_experience (text : str) : list experience_entry :=
  concat (List.map
            (fun pattern =>
               concat (List.map experience_of_match
                                (findall true pattern text)))
            experience_patterns).

Definition education_found (text : str) : list str :=
  List.filter (fun keyword => contains (lower keyword) (lower text))
              education_keywords.

(** A computation on the dictionary [entities]: it may raise, and what
    it did to the dictionary before raising stays done. *)
Definition M (A : Type) : Type := entities -> outcome A * entities.

Definition ret {A} (a : A) : M A := fun e => (Ok a, e).

Definition bind {A B} (c : M A) (k : A -> M B) : M B :=
  fun e =>
    match c e with
    | (Ok a, e') => k a e'
    | (Raise msg, e') => (Raise msg, e')
    end.

Definition call {A} (r : outcome A) : M A := fun e => (r, e).

Definition update (f : entities -> entities) : M unit :=
  fun e => (Ok tt, f e).

(** [try: body except Exception as e: handler] *)
Definition try_except {A} (body : M A) (handler : str -> M A) : M A :=
  fun e =>
    match body e with
    | (Ok a, e') => (Ok a, e')
    | (Raise msg, e') => handler msg e'
    end.

Section Entities.

(** [list(set(l))]: the distinct elements of [l] in the iteration order
    of the set, which the language does not specify. *)
Variable list_set : list str -> list str.

(** Nothing in [_extract_with_regex] can raise (pattern matching on a
    string, list and dictionary updates), so it is a function on the
    dictionary. *)
Definition _extract_with_regex (text : str) (e : entities) : entities :=
  let e := extract_email text e in
  let e := extract_phone phone_patterns text e in
  let e := set_skills (list_set (found_skills text)) e in
  let e := fold_left (fun e x => append_experience x e)
                     (found_experience text) e in
  match education_found text with
  | [] => e
  | found => set_education found e
  end.

Notation "x <- c ;; k" := (bind c (fun x => k))
  (at level 62, c at next level, right associativity).
Notation "c ;;; k" := (bind c (fun _ => k))
  (at level 62, right associativity).

Definition extract_entities (self : parser) (text : str) : outcome entities :=
  let body : M unit :=
    try_except
      ((match ner_pipeline self with
        | Some pipeline =>
            ner_results <- call (pipeline text) ;;
            update (_process_ner_results ner_results)
        | None => ret tt
        end) ;;;
       (match nlp self with
        | Some model =>
            doc <- call (model text) ;;
            update (_process_spacy_results doc)
        | None => ret tt
        end) ;;;
       update (_extract_with_regex text))
      (fun _ => update (_extract_with_regex text)) in
  match body empty_entities with
  | (Ok _, e) => Ok e
  | (Raise msg, _) => Raise msg
  end.

End Entities.

(** *** [validate_extraction] *)

(** The dictionary [validate_extraction] returns. *)
Record extraction_report := ExtractionReport {
  report_valid : bool;
  report_warnings : list str;
  report_suggestions : list str
}.

(** [not d.get(k)]: the key is missing, or its value is the empty string. *)
Definition not_get (k : string) (d : gmap string str) : bool :=
  match d !! k with
  | Some v => negb (truthy v)
  | None => true
  end.

Definition warn (warning suggestion : string) (r : extraction_report)
    : extraction_report :=
  ExtractionReport (report_valid r) (report_warnings r ++ [T warning])
                   (report_suggestions r ++ [T suggestion]).

Definition validate_extraction (e : entities) : extraction_report :=
  let validation_report := ExtractionReport true [] [] in
  (* Check for essential information *)
  let validation_report :=
    if not_get "email" (contact_info e)
    then warn "No email address found" "Consider adding your email address"
              validation_report
    else validation_report in
  let validation_report :=
    if not_get "phone" (contact_info e)
    then warn "No phone number found" "Consider adding your phone number"
              validation_report
    else validation_report in
  let validation_report :=
    match skills e with
    | [] => warn "No skills detected" "Consider adding a skills section"
                 validation_report
    | _ => validation_report
    end in
  match experience e with
  | [] => warn "No work experience detected"
               "Consider adding work experience details" validation_report
  | _ => validation_report
  end.

(** *** [load_models] *)

(** The result of [spacy.load]: the model, [OSError] (the model is not
    installed), or another exception. *)
Inductive loading (A : Type) :=
| Loaded (a : A)
| LoadOSError (msg : str)
| LoadRaises (msg : str).
Arguments Loaded {A} a.
Arguments LoadOSError {A} msg.
Arguments LoadRaises {A} msg.

(** What the model libraries do when [load_models] runs: the first
    [spacy.load], the download and the second [spacy.load] that follow an
    [OSError], and the construction of the HuggingFace pipeline. *)
Record model_libraries := ModelLibraries {
  spacy_load : loading (str -> outcome (list span));
  spacy_cli_download : outcome unit;
  spacy_load_again : outcome (str -> outcome (list span));
  transformers_pipeline : outcome (str -> outcome (list ner_entity))
}.

Definition check_mark : str := [9989].

(** [load_models]: the two attributes [self.nlp] and [self.ner_pipeline]
    it leaves, and the records of the logger. *)
Definition load_models (S : model_libraries) : parser * list event :=
  let failed (log : list event) (e : str) : parser * list event :=
    (Parser None None,
     log ++ [Error (cross_mark ++ T " Error loading models: " ++ e)]) in
  (* Load spaCy model *)
  let spacy : outcome (str -> outcome (list span)) * list event :=
    match spacy_load S with
    | Loaded model => (Ok model, [])
    | LoadOSError _ =>
        let log := [Warning (T "spaCy model not found, downloading...")] in
        match spacy_cli_download S with
        | Ok _ => (spacy_load_again S, log)
        | Raise e => (Raise e, log)
        end
    | LoadRaises e => (Raise e, [])
    end in
  match spacy with
  | (Raise e, log) => failed log e
  | (Ok model, log) =>
      (* Load HuggingFace NER model *)
      match transformers_pipeline S with
      | Raise e => failed log e
      | Ok pipeline =>
          (Parser (Some model) (Some pipeline),
           log ++ [Info (check_mark ++ T " All models loaded successfully")])
      end
  end.

End DocumentParser.

(** ** [src/utils/validators.py] *)

Module Validators.

Import Re.

(** The dictionary [validate_file_upload] returns. *)
Record upload_validation := UploadValidation {
  valid : bool;
  errors : list str;
  warnings : list str
}.

Definition reject (msg : str) (r : upload_validation) : upload_validation :=
  UploadValidation false (errors r ++ [msg]) (warnings r).

Definition allowed_types : list str :=
  [T "application/pdf";
   T "application/vnd.openxmlformats-officedocument.wordprocessingml.document";
   T "text/plain"].

Definition validate_file_upload (file_data : list byte) (file_type file_name : str)
    : upload_validation :=
  let validation_result := UploadValidation true [] [] in
  (* File size check (10MB limit) *)
  let max_size := (10 * 1024 * 1024)%Z in
  let validation_result :=
    if (len file_data >? max_size)%Z
    then reject (T "File size exceeds 10MB limit") validation_result
    else validation_result in
  (* File type check *)
  let validation_result :=
    if negb (bool_decide (file_type ∈ allowed_types))
    then reject (T "Unsupported file type: " ++ file_type) validation_result
    else validation_result in
  (* File name validation *)
  let validation_result :=
    if negb (truthy file_name) || (len (strip file_name) =? 0)%Z
    then reject (T "Invalid file name") validation_result
    else validation_result in
  (* Content validation *)
  if (len file_data =? 0)%Z
  then reject (T "File appears to be empty") validation_result
  else validation_result.

(** The dictionary [validate_content_extraction] returns ([is_valid] is
    its key ['valid']). *)
Record content_validation := ContentValidation {
  is_valid : bool;
  quality_score : Z;
  issues : list str;
  suggestions : list str
}.

Definition sections : list str :=
  List.map T ["experience"; "education"; "skills"; "summary"; "objective"]%string.


(* \\b[A-Za-z0-9._%+-]+@[A-Za-z0-9.-]+\\.[A-Z|a-z]{2,}\\b *)
Definition email_pattern : regex :=
  cat [Bound;
       Plus (Chars [AZ; az; d09; One (chr "."); One (chr "_"); One (chr "%");
                    One (chr "+"); One (chr "-")]);
       Lit (T "@");
       Plus (Chars [AZ; az; d09; One (chr "."); One (chr "-")]);
       Lit (T ".");
       Rep 2 None (Chars [AZ; One (chr "|"); az]);
       Bound].

(* \\b\\d{3}[-.]?\\d{3}[-.]?\\d{4}\\b *)
Definition phone_pattern : regex :=
  cat [Bound;
       Times 3 (Chars [Digit]); Opt (Chars [One (chr "-"); One (chr ".")]);
       Times 3 (Chars [Digit]); Opt (Chars [One (chr "-"); One (chr ".")]);
       Times 4 (Chars [Digit]);
       Bound].

Definition found (r : regex) (content : str) : bool :=
  match search false r content with Some _ => true | None => false end.

Definition bullet : str := [8226].

(** [sum(1 for section in sections if section.lower() in content.lower())] *)
Definition found_sections (content : str) : Z :=
  len (List.filter (fun section => contains (lower section) (lower content))
                   sections).

Definition validate_content_extraction (content : str) : content_validation :=
  if negb (truthy content) || (len (strip content) =? 0)%Z
  then ContentValidation false 0 [T "No content extracted from file"] []
  else
    (* Calculate quality score *)
    let quality_score := 0%Z in
    (* Length check *)
    let quality_score :=
      if (len content >? 100)%Z then (quality_score + 20)%Z
      else quality_score in
    (* Check for common resume sections *)
    let quality_score := (quality_score + found_sections content * 15)%Z in
    (* Check for contact information *)
    let quality_score :=
      if found email_pattern content then (quality_score + 15)%Z
      else quality_score in
    let quality_score :=
      if found phone_pattern content then (quality_score + 10)%Z
      else quality_score in
    (* Check for bullet points or structured content *)
    let quality_score :=
      if contains bullet content || contains (T "*") content
         || (count 10 content >? 5)%Z
      then (quality_score + 10)%Z
      else quality_score in
    let final := Z.min quality_score 100 in
    (* Add suggestions based on quality *)
    let suggestions :=
      (if (final <? 50)%Z
       then [T "Content quality seems low - ensure the file is not corrupted"]
       else [])
      ++ (if (found_sections content <? 2)%Z
          then [T "Consider using a more structured resume format"]
          else [])
      ++ (if negb (found email_pattern content)
          then [T "Make sure your contact email is clearly visible"]
          else []) in
    ContentValidation true final [] suggestions.

(** *** [validate_user_input] *)

(** [s.replace(a, b)] for one-character [a] and [b]. *)
Definition replace (a b : N) (s : str) : str :=
  List.map (fun c => if c =? a then b else c) s.

Definition add_warning (msg : str) (r : upload_validation) : upload_validation :=
  UploadValidation (valid r) (errors r) (warnings r ++ [msg]).

Definition required_fields : list string := ["desired_role"%string].

(** ['field not in input_data or not input_data[field].strip()'] *)
Definition field_missing (input_data : gmap string str) (field : string) : bool :=
  match input_data !! field with
  | None => true
  | Some v => negb (truthy (strip v))
  end.

(** The questionnaire, as far as the function reads it, is a dictionary
    from field names to strings.  [char.isdigit()] is a property of the
    Unicode database, taken as [isdigit]. *)
Definition validate_user_input (isdigit : N -> bool)
    (input_data : gmap string str) : upload_validation :=
  let validation_result := UploadValidation true [] [] in
  (* Check required fields *)
  let validation_result :=
    fold_left
      (fun r field =>
         if field_missing input_data field
         then add_warning (T "Consider filling out the "
                           ++ replace 95 32 (T field) ++ T " field") r
         else r)
      required_fields validation_result in
  (* Validate specific fields *)
  match input_data !! "expected_salary"%string with
  | Some v =>
      if truthy v then
        let salary := strip v in
        if truthy salary && negb (existsb isdigit salary)
        then add_warning (T "Salary field should contain numeric values")
                         validation_result
        else validation_result
      else validation_result
  | None => validation_result
  end.

End Validators.

(** ** [src/components/file_upload.py] *)

Module FileUpload.

Import Codec DocumentParser.

(** [uploaded_file.size]: the number of bytes of the file. *)
Definition size (f : uploaded_file) : Z := len (data f).

(** The dictionary [validate_uploaded_file] returns. *)
Record upload_report := UploadReport {
  valid : bool;
  errors : list str
}.

Definition allowed_types : list str :=
  [T "application/pdf";
   T "application/vnd.openxmlformats-officedocument.wordprocessingml.document";
   T "text/plain"].

(** [content[:n]] *)
Definition slice_to (n : Z) (s : str) : str :=
  if (0 <=? n)%Z then take (Z.to_nat n) s
  else take (length s - Z.to_nat (- n)) s.

(** [get_file_preview]; nothing in its [try] block can raise here. *)
Definition get_file_preview (f : uploaded_file) (max_chars : Z) : str :=
  if bool_decide (type_ f = T "text/plain") then
    let content := decode_ignore (data f) in
    slice_to max_chars content
    ++ (if (len content >? max_chars)%Z then T "..." else [])
  else
    T "Preview not available for " ++ type_ f
    ++ T " files. File will be processed when you click 'Process Resume'.".

Section Upload.

(** The document libraries, the attribute [pdf_reader.is_encrypted], and
    [format_file_size], whose floating-point arithmetic is not modelled
    (it only words one error message). *)
Variable L : libraries.
Variable is_encrypted : list byte -> bool.
Variable format_file_size : Z -> str.

Definition validate_pdf_file (f : uploaded_file) : list str :=
  match PyPDF2_PdfReader L (data f) with
  | Pages ps =>
      (* Check if PDF has pages *)
      (if (len ps =? 0)%Z then [T "PDF file contains no pages"] else [])
      (* Check if PDF is encrypted *)
      ++ (if is_encrypted (data f)
          then [T "PDF file is password-protected. Please upload an unprotected version."]
          else [])
  | OpenRaises e => [T "PDF file appears to be corrupted: " ++ e]
  end.

Definition readable (s : str) : bool := truthy (strip s).

Definition validate_docx_file (f : uploaded_file) : list str :=
  match docx_Document L (data f) with
  | Ok doc =>
      (* Check if document has content *)
      let has_content := existsb readable (paragraphs doc) in
      let has_content :=
        if negb has_content
        then (* Check tables as well *)
          existsb (fun table => existsb (fun row => existsb readable row) table)
                  (tables doc)
        else has_content in
      if negb has_content
      then [T "DOCX file appears to be empty or contains no readable text"]
      else []
  | Raise e => [T "DOCX file appears to be corrupted: " ++ e]
  end.

Definition validate_uploaded_file (f : uploaded_file) : upload_report :=
  (* Check file size (10MB limit) *)
  let max_size := (10 * 1024 * 1024)%Z in
  let errors :=
    if (size f >? max_size)%Z
    then [T "File size (" ++ format_file_size (size f)
          ++ T ") exceeds 10MB limit"]
    else [] in
  (* Check if file is empty *)
  let errors :=
    if (size f =? 0)%Z then errors ++ [T "File appears to be empty"]
    else errors in
  (* Check file type *)
  let errors :=
    if negb (bool_decide (type_ f ∈ allowed_types))
    then errors ++ [T "Unsupported file type: " ++ type_ f]
    else errors in
  (* Additional checks for specific file types *)
  let errors :=
    if bool_decide (type_ f = T "application/pdf")
    then errors ++ validate_pdf_file f
    else if contains (T "wordprocessingml") (type_ f)
    then errors ++ validate_docx_file f
    else errors in
  UploadReport (len errors =? 0)%Z errors.

End Upload.

End FileUpload.

(** ** [src/services/ai_enhancer.py]: the enhancement without the model *)

Module AIEnhancer.

(** The dictionary [_fallback_skills_categorization] returns. *)
Record skill_categories := SkillCategories {
  technical : list str;
  soft_skills : list str;
  industry_specific : list str;
  tools_software : list str;
  suggested_additions : list str
}.

Definition technical_keywords : list str :=
  List.map T ["python"; "java"; "sql"; "javascript"; "html"; "css"; "react";
              "node"]%string.

Definition soft_keywords : list str :=
  List.map T ["communication"; "leadership"; "teamwork"; "problem solving";
              "management"]%string.

(** [any(keyword in s.lower() for keyword in keywords)] *)
Definition mentions (keywords : list str) (s : str) : bool :=
  existsb (fun keyword => contains keyword (lower s)) keywords.

Definition _fallback_skills_categorization (skills : list str)
    : skill_categories :=
  let technical := List.filter (mentions technical_keywords) skills in
  let soft_skills := List.filter (mentions soft_keywords) skills in
  let other :=
    List.filter (fun s => negb (bool_decide (s ∈ technical))
                          && negb (bool_decide (s ∈ soft_skills))) skills in
  SkillCategories technical soft_skills other []
    (List.map T ["Problem Solving"; "Critical Thinking"; "Time Management"]%string).

(** An element of the list [_fallback_experience_enhancement] returns. *)
Record enhanced_entry := EnhancedEntry {
  role : str;
  company : str;
  enhanced_description : list str
}.

(** [d.get(k, default)] *)
Definition get (k : string) (fallback : string) (d : gmap string str) : str :=
  match d !! k with
  | Some v => v
  | None => T fallback
  end.

Definition _fallback_experience_enhancement (experience : list (gmap string str))
    : list enhanced_entry :=
  List.map
    (fun exp =>
       EnhancedEntry
         (get "role" "Professional" exp)
         (get "company" "Organization" exp)
         [T "Successfully performed " ++ get "role" "professional duties" exp
          ++ T " responsibilities";
          T "Collaborated with cross-functional teams to achieve organizational goals";
          T "Contributed to process improvements and operational efficiency"])
    experience.

End AIEnhancer.

(** ** Notions used in the statements

    Names for the outcomes of the sources, for the repeated merge, for the
    score as the specification words it, and the concrete inputs of the
    examples. *)

Module Notions.

Import Re Codec DocumentParser.

(** What a learned source contributes: the result of the model, nothing
    when the model could not be loaded, or the exception it raises. *)
Definition ner_outcome (self : parser) (text : str) : outcome (list ner_entity) :=
  match ner_pipeline self with
  | Some pipeline => pipeline text
  | None => Ok []
  end.

Definition spacy_outcome (self : parser) (text : str) : outcome (list span) :=
  match nlp self with
  | Some model => model text
  | None => Ok []
  end.

(** The dictionary as the learned sources leave it, when the deterministic
    matchers start: a source that raises contributes nothing, and ends
    the [try] block. *)
Definition learned (self : parser) (text : str) : entities :=
  match ner_outcome self text with
  | Raise _ => empty_entities
  | Ok ner_results =>
      let e := _process_ner_results ner_results empty_entities in
      match spacy_outcome self text with
      | Raise _ => e
      | Ok doc => _process_spacy_results doc e
      end
  end.

(** The contact fields after the deterministic matchers. *)
Definition contacts (text : str) (e : entities) : gmap string str :=
  contact_info (extract_phone phone_patterns text (extract_email text e)).

(** The first element of [l] that equals [s] when case is ignored. *)
Definition first_ignoring_case (s : str) (l : list str) : option str :=
  List.find (fun k => bool_decide (lower k = lower s)) l.

(** A parser without models, and one whose NER model raises. *)
Definition no_models : parser := Parser None None.

Definition failing_ner : parser :=
  Parser (Some (fun _ => Ok [Span "ORG" (T "Acme")]))
         (Some (fun _ => Raise (T "CUDA out of memory"))).

(** The key by which the specification identifies an experience entry:
    role and company, trimmed and in lower case. *)
Definition normalized_key (x : experience_entry) : str * str :=
  (lower (strip (role x)), lower (strip (company x))).

(** The experience entry of one match of an experience pattern: the two
    groups, trimmed. *)
Definition entry_of_match (x : rmatch) : experience_entry :=
  Experience (strip (nth 0 (groups x) [])) (strip (nth 1 (groups x) [])).

(** The merge of the three sources into the dictionary [e], in the order
    of [extract_entities]; applied to the empty dictionary it is what
    [extract_entities] computes when no source raises. *)
Definition reconcile (list_set : list str -> list str)
    (ner_results : list ner_entity) (doc : list span) (text : str)
    (e : entities) : entities :=
  _extract_with_regex list_set text
    (_process_spacy_results doc (_process_ner_results ner_results e)).

(** What the two learned sources append to the organizations and to the
    locations. *)
Definition ner_organizations (ner_results : list ner_entity) : list str :=
  List.map word
    (List.filter (fun x => String.eqb (entity_group x) "ORG") ner_results).

Definition ner_locations (ner_results : list ner_entity) : list str :=
  List.map word
    (List.filter (fun x => String.eqb (entity_group x) "LOC") ner_results).

Definition spacy_organizations (doc : list span) : list str :=
  List.map text (List.filter (fun x => String.eqb (label_ x) "ORG") doc).

Definition spacy_locations (doc : list span) : list str :=
  List.map text
    (List.filter (fun x => String.eqb (label_ x) "GPE"
                           || String.eqb (label_ x) "LOC") doc).

(** The email and the phone number the deterministic matchers find. *)
Definition email_of (text : str) : option str :=
  match findall true email_pattern text with
  | IStr email :: _ => Some email
  | _ => None
  end.

Fixpoint phone_of (patterns : list regex) (text : str) : option str :=
  match patterns with
  | [] => None
  | pattern :: patterns' =>
      match findall false pattern text with
      | ITuple l :: _ => Some (concat l)
      | IStr s :: _ => Some s
      | [] => phone_of patterns' text
      end
  end.

Definition with_key (k : string) (v : option str) (c : gmap string str)
    : gmap string str :=
  match v with
  | Some x => <[k := x]> c
  | None => c
  end.

(** A merge of one organization and one experience line, once and twice. *)
Definition acme_ner : list ner_entity := [NerEntity "ORG" (T "Acme")].

Definition merged_once : entities :=
  reconcile remove_dups acme_ner [] (T "Developer at Acme") empty_entities.

Definition merged_twice : entities :=
  reconcile remove_dups acme_ner [] (T "Developer at Acme") merged_once.

(** The two passes of the PDF cascade: the text accumulated and the
    exception that interrupted the pass, if any.  The second pass goes on
    from the text the first one left. *)
Definition first_pass (L : libraries) (f : uploaded_file) : str * option str :=
  read_pdf (pdfplumber_open L (data f)) [].

Definition second_pass (L : libraries) (f : uploaded_file) : str * option str :=
  read_pdf (PyPDF2_PdfReader L (data f)) (fst (first_pass L f)).

(** The first pass wins when it completes with text that is not only
    white space. *)
Definition first_pass_wins (L : libraries) (f : uploaded_file) : Prop :=
  snd (first_pass L f) = None /\ strip (fst (first_pass L f)) <> [].

(** The calls into extraction libraries of a run, and the first one. *)
Definition calls (r : outcome str * list event) : list event :=
  List.filter is_call (snd r).

Definition first_call (r : outcome str * list event) : option library :=
  match calls r with
  | Called l :: _ => Some l
  | _ => None
  end.

(** Example documents. *)
Definition pdf_bytes : list byte := [x25; x50; x44; x46].

Definition pdf_upload : uploaded_file :=
  UploadedFile (T "application/pdf") pdf_bytes.

(** A scanned PDF: pdfplumber finds a page of blanks, PyPDF2 nothing. *)
Definition scanned_pdf : libraries :=
  Libraries (fun _ => Pages [Page (Some (T "  "))])
            (fun _ => Pages [Page None])
            (fun _ => Raise (T "File is not a zip file")).

(** A corrupt PDF: both libraries raise. *)
Definition corrupt_pdf : libraries :=
  Libraries (fun _ => OpenRaises (T "No /Root object"))
            (fun _ => OpenRaises (T "EOF marker not found"))
            (fun _ => Raise (T "File is not a zip file")).

(** A PDF with one page of text, uploaded under a media type that is not
    one of the three accepted ones. *)
Definition one_page_pdf : libraries :=
  Libraries (fun _ => Pages [Page (Some (T "Jane Doe"))])
            (fun _ => Pages [Page (Some (T "Jane Doe"))])
            (fun _ => Raise (T "File is not a zip file")).

Definition loosely_typed_upload : uploaded_file :=
  UploadedFile (T "application/pdf-like") pdf_bytes.

(** The checks of the completeness score. *)
Definition b2z (b : bool) : Z := if b then 1%Z else 0%Z.

Definition has_bullets (content : str) : bool :=
  contains Validators.bullet content || contains (T "*") content.

(** The sum of the weighted checks as [validate_content_extraction]
    makes them: the last one counts newline characters. *)
Definition weighted_checks (content : str) : Z :=
  (20 * b2z (len content >? 100)
   + 15 * Validators.found_sections content
   + 15 * b2z (Validators.found Validators.email_pattern content)
   + 10 * b2z (Validators.found Validators.phone_pattern content)
   + 10 * b2z (has_bullets content || (count 10 content >? 5)))%Z.

(** The number of newline-delimited lines of a text. *)
Definition lines (text : str) : Z := (count 10 text + 1)%Z.

(** The completeness score in the words of the specification: the sum of
    the weighted checks, the last one being bullet markers or more than 5
    newline-delimited lines, clamped to [0,100], for every text. *)
Definition spec_completeness_score (text : str) : Z :=
  Z.max 0
    (Z.min 100
       (20 * b2z (len text >? 100)
        + 15 * Validators.found_sections text
        + 15 * b2z (Validators.found Validators.email_pattern text)
        + 10 * b2z (Validators.found Validators.phone_pattern text)
        + 10 * b2z (has_bullets text || (lines text >? 5)))%Z).

(** Six short lines, and seven empty ones. *)
Definition six_lines : str :=
  T "a" ++ nl ++ T "b" ++ nl ++ T "c" ++ nl ++ T "d" ++ nl ++ T "e" ++ nl
  ++ T "f".

Definition blank_lines : str := [10; 10; 10; 10; 10; 10; 10].

(** A resume with every signal, and a short note with none. *)
Definition full_resume : str :=
  T "Summary * Objective * Experience * Education * Skills * "
  ++ T "jane@example.com 555-123-4567".

Definition short_note : str := T "Lorem ipsum dolor sit amet, consectetur.".

(** The first person each learned source names. *)
Definition ner_person (ner_results : list ner_entity) : option str :=
  match List.find (fun x => String.eqb (entity_group x) "PER") ner_results with
  | Some x => Some (word x)
  | None => None
  end.

Definition spacy_person (doc : list span) : option str :=
  match List.find (fun x => String.eqb (label_ x) "PERSON") doc with
  | Some x => Some (text x)
  | None => None
  end.

(** A DOCX document has readable text when a paragraph or a table cell
    is not blank. *)
Definition docx_readable (doc : document) : bool :=
  existsb FileUpload.readable (paragraphs doc)
  || existsb (fun table =>
                existsb (fun row => existsb FileUpload.readable row) table)
             (tables doc).

(** An experience entry of the parser as the dictionary it is. *)
Definition as_dict (x : experience_entry) : gmap string str :=
  <["role"%string := role x]> (<["company"%string := company x]> ∅).

(** The library a media type accepted by the upload validator stands for. *)
Definition library_of (file_type : str) : option library :=
  if bool_decide (file_type = T "application/pdf") then Some pdfplumber
  else if bool_decide
            (file_type
             = T "application/vnd.openxmlformats-officedocument.wordprocessingml.document")
  then Some python_docx
  else if bool_decide (file_type = T "text/plain") then Some bytes_decode
  else None.

(** More example inputs: a DOCX upload with one paragraph, a model store
    without the spaCy model and without network, a questionnaire. *)
Definition docx_upload : uploaded_file :=
  UploadedFile
    (T "application/vnd.openxmlformats-officedocument.wordprocessingml.document")
    [x50; x4b; x03; x04].

Definition one_paragraph_docx : libraries :=
  Libraries (fun _ => OpenRaises (T "No /Root object"))
            (fun _ => OpenRaises (T "EOF marker not found"))
            (fun _ => Ok (Document [T "Jane Doe"; T "  "] [[[T ""; T "Python"]]])).

Definition offline_models : model_libraries :=
  ModelLibraries (LoadOSError (T "Can't find model 'en_core_web_sm'"))
                 (Raise (T "Connection refused"))
                 (Raise (T "Can't find model 'en_core_web_sm'"))
                 (Ok (fun _ => Ok [])).

Definition text_upload : uploaded_file :=
  UploadedFile (T "text/plain") [x4a; x61; x6e; x65].

(** The least number of characters a match of a pattern consumes. *)
Fixpoint min_len (r : regex) : nat :=
  match r with
  | Lit l => length l
  | Chars _ => 1
  | Seq a b => min_len a + min_len b
  | Alt a b => Nat.min (min_len a) (min_len b)
  | Rep lo _ a => lo * min_len a
  | Group _ a => min_len a
  | Bound => 0
  end.

(** A parser whose two models answer, and one whose spaCy model raises. *)
Definition both_models : parser :=
  Parser (Some (fun _ => Ok [Span "PERSON" (T "J. Doe"); Span "ORG" (T "Acme");
                             Span "GPE" (T "Paris")]))
         (Some (fun _ => Ok [NerEntity "ORG" (T "Acme");
                             NerEntity "PER" (T "Jane Doe")])).

Definition failing_spacy : parser :=
  Parser (Some (fun _ => Raise (T "E050 model not loaded")))
         (Some (fun _ => Ok [NerEntity "ORG" (T "Acme")])).

(** A list of at most one message, and the test for the empty list. *)
Definition flag (b : bool) (w : string) : list str := if b then [T w] else [].

Definition is_nil {A} (l : list A) : bool :=
  match l with [] => true | _ => false end.

(** A PDF that pdfplumber gives up after its first page. *)
Definition half_read_pdf : libraries :=
  Libraries (fun _ => Pages [Page (Some (T "Page one"));
                             PageRaises (T "Unexpected EOF")])
            (fun _ => Pages [Page (Some (T "Page one"));
                             Page (Some (T "Page two"))])
            (fun _ => Raise (T "File is not a zip file")).

(** A page that PyPDF2 reads without raising. *)
Definition page_reads (p : page) : bool :=
  match p with
  | Page _ => true
  | PageRaises _ => false
  end.

(** The three lines [_fallback_experience_enhancement] describes a role
    with. *)
Definition enhanced_lines (role : str) : list str :=
  [T "Successfully performed " ++ role ++ T " responsibilities";
   T "Collaborated with cross-functional teams to achieve organizational goals";
   T "Contributed to process improvements and operational efficiency"].

(** The text [full_resume] with the bullet of the content validator. *)
Definition bulleted_resume : str :=
  T "Summary " ++ Validators.bullet ++ T " Objective " ++ Validators.bullet
  ++ T " Experience " ++ Validators.bullet ++ T " Education "
  ++ Validators.bullet ++ T " Skills " ++ Validators.bullet
  ++ T " jane@example.com 555-123-4567".

(** A text with the en dash of the second experience pattern. *)
Definition dashed_resume : str :=
  T "Acme Corp " ++ [en_dash] ++ T " Manager. Developer at Initech.".

(** The characters on which the character tables of this development
    ([Re.isword], [Re.isdigit], [Py.lower_cp] and the case variants of
    [Re.in_set] and [Re.char_eq]) are those of Python: the code points
    below U+0100, and the two symbols above them that the source itself
    writes, the en dash of the second experience pattern and the bullet
    of the content validator.  Neither symbol is a word character or a
    digit, and neither has a case.  A text is within the tables when all
    its characters are. *)
Definition in_tables_cp (c : N) : bool :=
  (c <? 256) || (c =? en_dash) || (c =? 8226).

Definition in_tables (s : str) : bool := forallb in_tables_cp s.

End Notions.

(** * Properties of the pipeline *)

Import Re Codec.

(** ** Entity recognition *)

Module EntityFacts.

Import DocumentParser Notions.

(** *** What each step does to each key of the dictionary *)

Lemma fold_left_keeps {A B C} (f : A -> B -> A) (key : A -> C) :
  (forall a b, key (f a b) = key a) ->
  forall l a, key (fold_left f l a) = key a.
Proof.
  intros Hstep l. induction l as [|b l IH]; intros a; simpl; [reflexivity|].
  rewrite IH. apply Hstep.
Qed.

Ltac step_cases :=
  intros; unfold process_ner_entity, process_span;
  repeat match goal with
         | |- context [if ?b then _ else _] => destruct b
         end; reflexivity.

Lemma ner_keeps_contact_info rs e :
  contact_info (_process_ner_results rs e) = contact_info e.
Proof. apply fold_left_keeps. step_cases. Qed.

Lemma ner_keeps_skills rs e :
  skills (_process_ner_results rs e) = skills e.
Proof. apply fold_left_keeps. step_cases. Qed.

Lemma ner_keeps_experience rs e :
  experience (_process_ner_results rs e) = experience e.
Proof. apply fold_left_keeps. step_cases. Qed.

Lemma ner_keeps_education rs e :
  education (_process_ner_results rs e) = education e.
Proof. apply fold_left_keeps. step_cases. Qed.

Lemma ner_keeps_projects rs e :
  projects (_process_ner_results rs e) = projects e.
Proof. apply fold_left_keeps. step_cases. Qed.

Lemma spacy_keeps_contact_info doc e :
  contact_info (_process_spacy_results doc e) = contact_info e.
Proof. apply fold_left_keeps. step_cases. Qed.

Lemma spacy_keeps_skills doc e :
  skills (_process_spacy_results doc e) = skills e.
Proof. apply fold_left_keeps. step_cases. Qed.

Lemma spacy_keeps_experience doc e :
  experience (_process_spacy_results doc e) = experience e.
Proof. apply fold_left_keeps. step_cases. Qed.

Lemma spacy_keeps_education doc e :
  education (_process_spacy_results doc e) = education e.
Proof. apply fold_left_keeps. step_cases. Qed.

Lemma spacy_keeps_projects doc e :
  projects (_process_spacy_results doc e) = projects e.
Proof. apply fold_left_keeps. step_cases. Qed.

(** The learned sources write the name, the organizations and the
    locations only. *)
Lemma learned_contact_info self text : contact_info (learned self text) = ∅.
Proof.
  unfold learned. destruct (ner_outcome self text); [|reflexivity].
  destruct (spacy_outcome self text);
    rewrite ?spacy_keeps_contact_info, ner_keeps_contact_info; reflexivity.
Qed.

Lemma learned_experience self text : experience (learned self text) = [].
Proof.
  unfold learned. destruct (ner_outcome self text); [|reflexivity].
  destruct (spacy_outcome self text);
    rewrite ?spacy_keeps_experience, ner_keeps_experience; reflexivity.
Qed.

Lemma append_experiences l e :
  fold_left (fun e x => append_experience x e) l e
  = Entities (personal_info e) (contact_info e) (skills e)
             (experience e ++ l) (education e) (projects e)
             (organizations e) (locations e).
Proof.
  revert e. induction l as [|x l IH]; intros e; simpl.
  - rewrite app_nil_r. destruct e; reflexivity.
  - rewrite IH. simpl. rewrite <- app_assoc. reflexivity.
Qed.

Lemma email_keeps text e :
  personal_info (extract_email text e) = personal_info e
  /\ skills (extract_email text e) = skills e
  /\ experience (extract_email text e) = experience e
  /\ education (extract_email text e) = education e
  /\ projects (extract_email text e) = projects e
  /\ organizations (extract_email text e) = organizations e
  /\ locations (extract_email text e) = locations e.
Proof.
  unfold extract_email.
  destruct (findall true email_pattern text) as [|[email|l] rest];
    repeat split; reflexivity.
Qed.

Lemma phone_keeps patterns text e :
  personal_info (extract_phone patterns text e) = personal_info e
  /\ skills (extract_phone patterns text e) = skills e
  /\ experience (extract_phone patterns text e) = experience e
  /\ education (extract_phone patterns text e) = education e
  /\ projects (extract_phone patterns text e) = projects e
  /\ organizations (extract_phone patterns text e) = organizations e
  /\ locations (extract_phone patterns text e) = locations e.
Proof.
  induction patterns as [|pattern patterns IH]; simpl.
  - repeat split; reflexivity.
  - destruct (findall false pattern text) as [|[s|l] rest];
      [exact IH | repeat split; reflexivity ..].
Qed.

Lemma regex_fields list_set text e :
  let e' := _extract_with_regex list_set text e in
  personal_info e' = personal_info e
  /\ contact_info e' = contacts text e
  /\ skills e' = list_set (found_skills text)
  /\ experience e' = experience e ++ found_experience text
  /\ education e' = match education_found text with
                    | [] => education e
                    | found => found
                    end
  /\ projects e' = projects e
  /\ organizations e' = organizations e
  /\ locations e' = locations e.
Proof.
  unfold _extract_with_regex, contacts. cbv zeta. rewrite append_experiences.
  destruct (phone_keeps phone_patterns text (extract_email text e))
    as (P1 & P2 & P3 & P4 & P5 & P6 & P7).
  destruct (email_keeps text e) as (E1 & E2 & E3 & E4 & E5 & E6 & E7).
  set (e2 := extract_phone phone_patterns text (extract_email text e)) in *.
  destruct (education_found text) as [|k ks];
    unfold set_education, set_skills;
    cbn [personal_info contact_info skills experience education projects
         organizations locations];
    rewrite P1, P3, P5, P6, P7, E1, E3, E5, E6, E7, ?P4, ?E4;
    repeat split; reflexivity.
Qed.

Lemma extract_entities_eq list_set self text :
  extract_entities list_set self text
  = Ok (_extract_with_regex list_set text (learned self text)).
Proof.
  unfold extract_entities, learned, ner_outcome, spacy_outcome.
  unfold try_except, bind, call, update, ret.
  destruct (ner_pipeline self) as [pipeline|]; simpl.
  - destruct (pipeline text) as [ner_results|msg]; simpl; [|reflexivity].
    destruct (nlp self) as [model|]; simpl; [|reflexivity].
    destruct (model text) as [doc|msg]; reflexivity.
  - destruct (nlp self) as [model|]; simpl; [|reflexivity].
    destruct (model text) as [doc|msg]; reflexivity.
Qed.

(** *** Skills *)

Lemma filter_keeps_NoDup_map {A B} (g : A -> B) (f : A -> bool) l :
  NoDup (List.map g l) -> NoDup (List.map g (List.filter f l)).
Proof.
  induction l as [|x l IH]; simpl; intros H; [constructor|].
  apply NoDup_cons in H as [Hx Hl].
  destruct (f x); simpl; [|auto].
  apply NoDup_cons. split; [|auto].
  intros Hin. apply Hx.
  apply list_elem_of_In in Hin. apply list_elem_of_In.
  apply in_map_iff in Hin as (y & <- & Hy).
  apply in_map. apply filter_In in Hy. tauto.
Qed.

Lemma remove_dups_NoDup {A} `{EqDecision A} (l : list A) :
  NoDup l -> remove_dups l = l.
Proof.
  induction l as [|x l IH]; simpl; intros H; [reflexivity|].
  apply NoDup_cons in H as [Hx Hl].
  rewrite (IH Hl). destruct (decide_rel _ x l); [contradiction|reflexivity].
Qed.

Lemma skill_keywords_distinct : NoDup (List.map lower skill_keywords).
Proof. refine (bool_decide_unpack _ _). vm_compute. exact I. Qed.

Lemma found_skills_distinct text : NoDup (List.map lower (found_skills text)).
Proof. apply filter_keeps_NoDup_map, skill_keywords_distinct. Qed.

Lemma NoDup_map_inv' {A B} (g : A -> B) l : NoDup (List.map g l) -> NoDup l.
Proof.
  induction l as [|x l IH]; simpl; intros H; [constructor|].
  apply NoDup_cons in H as [Hx Hl]. apply NoDup_cons. split; [|auto].
  intros Hin. apply Hx. apply list_elem_of_In, in_map, list_elem_of_In, Hin.
Qed.

Lemma found_skills_NoDup text : NoDup (found_skills text).
Proof. eapply NoDup_map_inv', found_skills_distinct. Qed.

Lemma found_skills_iff text s :
  s ∈ found_skills text
  <-> s ∈ skill_keywords /\ contains (lower s) (lower text) = true.
Proof.
  unfold found_skills. rewrite !list_elem_of_In, filter_In. reflexivity.
Qed.

Lemma list_set_found list_set text :
  (forall l, list_set l ≡ₚ remove_dups l) ->
  list_set (found_skills text) ≡ₚ found_skills text.
Proof.
  intros H. rewrite H, remove_dups_NoDup; [reflexivity|].
  apply found_skills_NoDup.
Qed.

Lemma extract_entities_skills list_set self text :
  exists e, extract_entities list_set self text = Ok e
            /\ skills e = list_set (found_skills text).
Proof.
  rewrite extract_entities_eq. eexists. split; [reflexivity|].
  apply regex_fields.
Qed.

Lemma find_first_distinct (s : str) (l : list str) :
  NoDup (List.map lower l) -> s ∈ l -> first_ignoring_case s l = Some s.
Proof.
  unfold first_ignoring_case.
  induction l as [|k l IH]; simpl; intros H Hs.
  - inversion Hs.
  - apply NoDup_cons in H as [Hk Hl].
    destruct (bool_decide_reflect (lower k = lower s)) as [Heq|Hne].
    + apply elem_of_cons in Hs as [->|Hs]; [reflexivity|].
      exfalso. apply Hk. rewrite Heq.
      apply list_elem_of_In, in_map, list_elem_of_In, Hs.
    + apply elem_of_cons in Hs as [->|Hs]; [congruence|]. auto.
Qed.

(** C9.  The skills of a merged record contain no two entries that are
    equal when case is ignored, and every entry is, with its casing, the
    first entry of that spelling among the skills contributed (the skills
    the keyword source found, the only source that contributes skills); a
    text that mentions both Python and python yields the single skill
    Python. *)
Theorem skills_unique_ignoring_case
    (list_set : list str -> list str) (self : parser) (text : str)
    (Hset : forall l, list_set l ≡ₚ remove_dups l) :
  (exists e, extract_entities list_set self text = Ok e
     /\ NoDup (List.map lower (skills e))
     /\ (forall s, s ∈ skills e ->
           first_ignoring_case s (found_skills text) = Some s))
  /\ (exists e, extract_entities list_set self (T "Python, python") = Ok e
        /\ skills e = [T "Python"]).
Proof.
  split.
  - destruct (extract_entities_skills list_set self text) as (e & He & Hs).
    exists e. split; [exact He|]. rewrite Hs.
    pose proof (list_set_found list_set text Hset) as Hperm.
    split.
    + rewrite (Permutation_map lower Hperm). apply found_skills_distinct.
    + intros s Hin. apply find_first_distinct.
      * apply found_skills_distinct.
      * rewrite <- Hperm. exact Hin.
  - destruct (extract_entities_skills list_set self (T "Python, python"))
      as (e & He & Hs).
    exists e. split; [exact He|]. rewrite Hs.
    apply Permutation_singleton_r.
    rewrite (list_set_found list_set _ Hset). vm_compute. reflexivity.
Qed.

Lemma skills_unique_ignoring_case_witness :
  exists e, extract_entities remove_dups no_models
              (T "Skills: Python, JAVA, python and sql") = Ok e
    /\ NoDup (List.map lower (skills e))
    /\ (forall s, s ∈ skills e ->
          first_ignoring_case s
            (found_skills (T "Skills: Python, JAVA, python and sql")) = Some s).
Proof.
  exact (proj1 (skills_unique_ignoring_case remove_dups no_models
                  (T "Skills: Python, JAVA, python and sql")
                  (fun l => Permutation_refl (remove_dups l)))).
Defined.

(** C10.  The skills list of the record holds only entries of the
    dictionary of 26 keywords, in the dictionary's casing and without
    repetition, and it is the same whatever the learned sources do.  On a
    text within the tables a keyword is listed exactly when its lower
    case occurs in the lower case of the text. *)
Theorem skills_within_dictionary
    (list_set : list str -> list str) (self : parser) (text : str)
    (Hset : forall l, list_set l ≡ₚ remove_dups l) :
  length skill_keywords = 26%nat
  /\ exists e, extract_entities list_set self text = Ok e
       /\ (forall s, s ∈ skills e -> s ∈ skill_keywords)
       /\ (in_tables text = true ->
           forall s, s ∈ skills e
                     <-> s ∈ skill_keywords
                         /\ contains (lower s) (lower text) = true)
       /\ NoDup (skills e)
       /\ (forall self', exists e',
             extract_entities list_set self' text = Ok e'
             /\ skills e' = skills e).
Proof.
  split; [reflexivity|].
  destruct (extract_entities_skills list_set self text) as (e & He & Hs).
  exists e. split; [exact He|].
  pose proof (list_set_found list_set text Hset) as Hperm.
  split; [|split; [|split]].
  - intros s. rewrite Hs, Hperm. intros H.
    apply found_skills_iff in H as [H _]. exact H.
  - intros _ s. rewrite Hs, Hperm. apply found_skills_iff.
  - rewrite Hs, Hperm. apply found_skills_NoDup.
  - intros self'.
    destruct (extract_entities_skills list_set self' text) as (e' & He' & Hs').
    exists e'. split; [exact He'|]. congruence.
Qed.

Lemma skills_within_dictionary_witness :
  length skill_keywords = 26%nat
  /\ exists e, extract_entities remove_dups failing_ner
                 (T "fluent in PYTHON and javascript") = Ok e
       /\ (forall s, s ∈ skills e -> s ∈ skill_keywords)
       /\ (forall s, s ∈ skills e
                     <-> s ∈ skill_keywords
                         /\ contains (lower s)
                               (lower (T "fluent in PYTHON and javascript"))
                             = true)
       /\ NoDup (skills e)
       /\ (forall self', exists e',
             extract_entities remove_dups self'
               (T "fluent in PYTHON and javascript") = Ok e'
             /\ skills e' = skills e).
Proof.
  destruct (skills_within_dictionary remove_dups failing_ner
              (T "fluent in PYTHON and javascript")
              (fun l => Permutation_refl (remove_dups l)))
    as (H26 & e & He & Hsub & Hiff & Hnd & Hself).
  split; [exact H26|].
  exists e. split; [exact He|]. split; [exact Hsub|].
  split; [apply Hiff; vm_compute; reflexivity|].
  split; [exact Hnd|exact Hself].
Defined.

(** *** The email address *)

Lemma scan_head ic r p s : head (scan ic r 0 p s) = search_from ic r p s.
Proof.
  revert p. induction s as [|c s IH]; intros p; simpl;
    destruct (match_at ic r p _); simpl; auto.
Qed.

Lemma findall_email_first text x :
  search true email_pattern text = Some x ->
  exists rest, findall true email_pattern text = IStr (whole x) :: rest.
Proof.
  unfold search, findall, finditer. rewrite <- scan_head.
  change (ngroups email_pattern) with 0%nat.
  destruct (scan true email_pattern 0 None text) as [|y l]; simpl; [discriminate|].
  intros [= ->]. eauto.
Qed.

Lemma phone_keeps_email patterns text e :
  contact_info (extract_phone patterns text e) !! "email"%string
  = contact_info e !! "email"%string.
Proof.
  induction patterns as [|pattern patterns IH]; simpl; [reflexivity|].
  destruct (findall false pattern text) as [|[s|l] rest]; [exact IH| |];
    simpl; apply lookup_insert_ne; discriminate.
Qed.

(** C7 (as amended).  Email extraction is first-match-wins: on a text
    within the tables, when the email pattern matches somewhere in the
    text, the email field of the record is the leftmost match, whatever
    the learned sources do.  (A text that contains jane@example.com after
    another address, or glued to word characters, gets another value: see
    [email_is_not_any_occurrence].) *)
Theorem email_first_match_wins
    (list_set : list str -> list str) (self : parser) (text : str)
    (x : rmatch) :
  in_tables text = true ->
  search true email_pattern text = Some x ->
  exists e, extract_entities list_set self text = Ok e
            /\ contact_info e !! "email"%string = Some (whole x).
Proof.
  intros _ Hx. rewrite extract_entities_eq. eexists. split; [reflexivity|].
  destruct (regex_fields list_set text (learned self text))
    as (_ & -> & _).
  unfold contacts. rewrite phone_keeps_email. unfold extract_email.
  destruct (findall_email_first text x Hx) as [rest ->].
  simpl. apply lookup_insert_eq.
Qed.

Lemma email_first_match_wins_witness :
  exists e, extract_entities remove_dups no_models
              (T "Contact: jane@example.com, or bob@x.org") = Ok e
            /\ contact_info e !! "email"%string = Some (T "jane@example.com").
Proof.
  refine (email_first_match_wins remove_dups no_models
            (T "Contact: jane@example.com, or bob@x.org")
            (RMatch (T "jane@example.com") []) _ _);
    vm_compute; reflexivity.
Defined.

(** C7, the claim as stated fails: a text can contain jane@example.com
    and give another email field, because an earlier address wins. *)
Lemma email_is_not_any_occurrence :
  contains (T "jane@example.com") (T "bob@x.org, jane@example.com") = true
  /\ exists e, extract_entities remove_dups no_models
                 (T "bob@x.org, jane@example.com") = Ok e
       /\ contact_info e !! "email"%string = Some (T "bob@x.org")
       /\ contact_info e !! "email"%string <> Some (T "jane@example.com").
Proof.
  split; [vm_compute; reflexivity|].
  destruct (email_first_match_wins remove_dups no_models
              (T "bob@x.org, jane@example.com")
              (RMatch (T "bob@x.org") [])) as (e & He & Hm).
  { vm_compute. reflexivity. }
  { vm_compute. reflexivity. }
  exists e. split; [exact He|]. split; [exact Hm|].
  rewrite Hm. vm_compute. discriminate.
Qed.

(** *** Experience *)

Lemma match_at_groups ic r p s x :
  match_at ic r p s = Some x -> length (groups x) = ngroups r.
Proof.
  unfold match_at. destruct (m ic r Some _); [|discriminate].
  intros [= <-]. simpl. rewrite length_map, length_seq. reflexivity.
Qed.

Lemma scan_groups ic r k p s :
  Forall (fun x => length (groups x) = ngroups r) (scan ic r k p s).
Proof.
  revert k p. induction s as [|c s IH]; intros k p; simpl.
  - destruct k; [|constructor].
    destruct (match_at ic r p []) eqn:E; constructor; [|constructor].
    eapply match_at_groups, E.
  - destruct k; [|apply IH].
    destruct (match_at ic r p (c :: s)) eqn:E; [|apply IH].
    constructor; [eapply match_at_groups, E|apply IH].
Qed.

Lemma experience_of_two_groups x :
  length (groups x) = 2%nat ->
  experience_of_match (to_item 2 x) = [entry_of_match x].
Proof.
  unfold entry_of_match. simpl.
  destruct (groups x) as [|g1 [|g2 [|g3 l]]]; try discriminate.
  reflexivity.
Qed.

Lemma experience_of_pattern pattern text :
  ngroups pattern = 2%nat ->
  concat (List.map experience_of_match (findall true pattern text))
  = List.map entry_of_match (finditer true pattern text).
Proof.
  intros Hn. unfold findall, finditer. rewrite Hn.
  pose proof (scan_groups true pattern 0 None text) as H. rewrite Hn in H.
  induction H as [|x l Hx _ IH]; [reflexivity|].
  cbn [List.map concat].
  rewrite (experience_of_two_groups x Hx), IH. reflexivity.
Qed.

Lemma found_experience_eq text :
  found_experience text
  = concat (List.map (fun pattern =>
                        List.map entry_of_match (finditer true pattern text))
                     experience_patterns).
Proof.
  unfold found_experience, experience_patterns. simpl.
  rewrite !experience_of_pattern by reflexivity. reflexivity.
Qed.

(** The line of the specification's example gives one entry. *)
Example software_engineer_at_acme :
  found_experience (T "Software Engineer at Acme Corp")
  = [Experience (T "Software Engineer") (T "Acme Corp")].
Proof. vm_compute. reflexivity. Qed.

(** C2 (as amended).  On a text within the tables, the experience list
    of the record has one entry per match of the two experience patterns,
    first pattern first and matches left to right, each entry holding the
    two captured groups trimmed of white space and in their original
    casing; entries are not compared with one another, so their number is
    the number of matches. *)
Theorem experience_one_entry_per_match
    (list_set : list str -> list str) (self : parser) (text : str) :
  in_tables text = true ->
  exists e, extract_entities list_set self text = Ok e
    /\ experience e
       = concat (List.map
                   (fun pattern =>
                      List.map entry_of_match (finditer true pattern text))
                   experience_patterns)
    /\ length (experience e)
       = sum_list (List.map (fun pattern => length (finditer true pattern text))
                            experience_patterns).
Proof.
  intros _. rewrite extract_entities_eq. eexists. split; [reflexivity|].
  destruct (regex_fields list_set text (learned self text))
    as (_ & _ & _ & -> & _).
  rewrite learned_experience, found_experience_eq. simpl.
  split; [reflexivity|].
  rewrite !app_nil_r, length_app, !length_map. lia.
Qed.

Lemma experience_one_entry_per_match_witness :
  exists e, extract_entities remove_dups no_models dashed_resume = Ok e
    /\ experience e = [Experience (T "Developer") (T "Initech");
                       Experience (T "Acme Corp") (T "Manager")].
Proof.
  destruct (experience_one_entry_per_match remove_dups no_models
              dashed_resume) as (e & He & Hx & _).
  { vm_compute. reflexivity. }
  exists e. split; [exact He|].
  rewrite Hx. vm_compute. reflexivity.
Defined.

(** C2, the claim as stated fails: two matches whose roles and companies
    differ only in case give two entries with the same normalized key, and
    the later one is kept. *)
Lemma experience_keeps_duplicates :
  exists e, extract_entities remove_dups no_models
              (T "Developer at Acme. developer at ACME.") = Ok e
    /\ experience e = [Experience (T "Developer") (T "Acme");
                       Experience (T "developer") (T "ACME")]
    /\ normalized_key (Experience (T "Developer") (T "Acme"))
       = normalized_key (Experience (T "developer") (T "ACME")).
Proof.
  destruct (experience_one_entry_per_match remove_dups no_models
              (T "Developer at Acme. developer at ACME."))
    as (e & He & Hx & _).
  { vm_compute. reflexivity. }
  exists e. split; [exact He|]. split; [|vm_compute; reflexivity].
  rewrite Hx. vm_compute. reflexivity.
Qed.

(** *** Repeated merge *)

Ltac label_cases :=
  repeat match goal with
         | |- context [String.eqb ?g ?k] =>
             is_var g; destruct (String.eqb_spec g k) as [->|?]
         end;
  cbn;
  repeat match goal with
         | |- context [name_missing ?e] => destruct (name_missing e)
         end;
  cbn; rewrite <- ?app_assoc; try reflexivity.

Lemma ner_organizations_eq rs e :
  organizations (_process_ner_results rs e)
  = organizations e ++ ner_organizations rs.
Proof.
  unfold _process_ner_results, ner_organizations.
  revert e. induction rs as [|[g w] rs IH]; intros e;
    cbn [fold_left List.filter List.map].
  - rewrite app_nil_r. reflexivity.
  - rewrite IH. unfold process_ner_entity. cbn [entity_group word].
    label_cases.
Qed.

Lemma ner_locations_eq rs e :
  locations (_process_ner_results rs e) = locations e ++ ner_locations rs.
Proof.
  unfold _process_ner_results, ner_locations.
  revert e. induction rs as [|[g w] rs IH]; intros e;
    cbn [fold_left List.filter List.map].
  - rewrite app_nil_r. reflexivity.
  - rewrite IH. unfold process_ner_entity. cbn [entity_group word].
    label_cases.
Qed.

Lemma spacy_organizations_eq doc e :
  organizations (_process_spacy_results doc e)
  = organizations e ++ spacy_organizations doc.
Proof.
  unfold _process_spacy_results, spacy_organizations.
  revert e. induction doc as [|[g w] doc IH]; intros e;
    cbn [fold_left List.filter List.map].
  - rewrite app_nil_r. reflexivity.
  - rewrite IH. unfold process_span. cbn [label_ text].
    label_cases.
Qed.

Lemma spacy_locations_eq doc e :
  locations (_process_spacy_results doc e) = locations e ++ spacy_locations doc.
Proof.
  unfold _process_spacy_results, spacy_locations.
  revert e. induction doc as [|[g w] doc IH]; intros e;
    cbn [fold_left List.filter List.map].
  - rewrite app_nil_r. reflexivity.
  - rewrite IH. unfold process_span. cbn [label_ text].
    label_cases.
Qed.

(** The name: the first source that provides one wins. *)
Lemma ner_step_name e x :
  (personal_info (process_ner_entity e x) = personal_info e
   /\ (name_missing e = true -> entity_group x <> "PER"%string))
  \/ (name_missing e = true /\ name_missing (process_ner_entity e x) = false).
Proof.
  destruct x as [g w]. unfold process_ner_entity. cbn [entity_group word].
  destruct (String.eqb_spec g "PER") as [->|E].
  - destruct (name_missing e) eqn:M.
    + right. split; [reflexivity|]. unfold name_missing, set_personal_info.
      cbn [personal_info]. rewrite lookup_insert_eq. reflexivity.
    + left. split; [reflexivity|discriminate].
  - left. split; [|auto]. label_cases.
Qed.

Lemma spacy_step_name e x :
  (personal_info (process_span e x) = personal_info e
   /\ (name_missing e = true -> label_ x <> "PERSON"%string))
  \/ (name_missing e = true /\ name_missing (process_span e x) = false).
Proof.
  destruct x as [g w]. unfold process_span. cbn [label_ text].
  destruct (String.eqb_spec g "PERSON") as [->|E].
  - destruct (name_missing e) eqn:M.
    + right. split; [reflexivity|]. unfold name_missing, set_personal_info.
      cbn [andb personal_info]. rewrite lookup_insert_eq. reflexivity.
    + left. split; [reflexivity|discriminate].
  - left. split; [|auto]. label_cases.
Qed.

Lemma name_missing_ext e e' :
  personal_info e = personal_info e' -> name_missing e = name_missing e'.
Proof. unfold name_missing. intros ->. reflexivity. Qed.

(** A fold of steps that can only add the name: once the name is there
    nothing changes, and a fold that leaves the name missing leaves every
    dictionary's personal information alone. *)
Section FirstWins.
Context {X : Type} (step : entities -> X -> entities) (named : X -> Prop).
Hypothesis step_name : forall e x,
  (personal_info (step e x) = personal_info e
   /\ (name_missing e = true -> ~ named x))
  \/ (name_missing e = true /\ name_missing (step e x) = false).
Hypothesis step_unnamed : forall e x,
  ~ named x -> personal_info (step e x) = personal_info e.

Lemma fold_named_keeps l e :
  name_missing e = false ->
  personal_info (fold_left step l e) = personal_info e.
Proof using step_name.
  revert e. induction l as [|x l IH]; intros e M; simpl; [reflexivity|].
  destruct (step_name e x) as [[P _]|[M' _]]; [|congruence].
  rewrite IH, P; [reflexivity|].
  rewrite (name_missing_ext _ e P). exact M.
Qed.

Lemma fold_missing_unnamed l e :
  name_missing (fold_left step l e) = true ->
  name_missing e = true /\ Forall (fun x => ~ named x) l.
Proof using step_name.
  revert e. induction l as [|x l IH]; intros e M; simpl in M.
  - split; [exact M|constructor].
  - destruct (IH _ M) as [M1 Hl].
    destruct (step_name e x) as [[P U]|[_ M']]; [|congruence].
    rewrite (name_missing_ext _ e P) in M1.
    split; [exact M1|]. constructor; auto.
Qed.

Lemma fold_unnamed_keeps l e :
  Forall (fun x => ~ named x) l ->
  personal_info (fold_left step l e) = personal_info e.
Proof using step_unnamed.
  intros Hl. revert e. induction Hl as [|x l Hx _ IH]; intros e; simpl;
    [reflexivity|].
  rewrite IH. apply step_unnamed, Hx.
Qed.

(** Applying the fold again to a dictionary that already went through it
    (and through steps [after] that keep the personal information). *)
Lemma fold_again l e e1 :
  personal_info e1 = personal_info (fold_left step l e) ->
  personal_info (fold_left step l e1) = personal_info e1.
Proof using step_name step_unnamed.
  intros H. destruct (name_missing e1) eqn:M.
  - apply fold_unnamed_keeps.
    rewrite (name_missing_ext _ _ H) in M.
    apply (fold_missing_unnamed l e M).
  - apply fold_named_keeps, M.
Qed.

End FirstWins.

Lemma ner_step_unnamed e x :
  entity_group x <> "PER"%string ->
  personal_info (process_ner_entity e x) = personal_info e.
Proof.
  destruct x as [g w]. cbn [entity_group]. intros H.
  unfold process_ner_entity. cbn [entity_group word].
  destruct (String.eqb_spec g "PER"); [contradiction|]. label_cases.
Qed.

Lemma spacy_step_unnamed e x :
  label_ x <> "PERSON"%string ->
  personal_info (process_span e x) = personal_info e.
Proof.
  destruct x as [g w]. cbn [label_]. intros H.
  unfold process_span. cbn [label_ text].
  destruct (String.eqb_spec g "PERSON"); [contradiction|]. label_cases.
Qed.

Lemma extract_email_contact text e :
  contact_info (extract_email text e)
  = with_key "email" (email_of text) (contact_info e).
Proof.
  unfold extract_email, email_of.
  destruct (findall true email_pattern text) as [|[email|l] rest]; reflexivity.
Qed.

Lemma extract_phone_contact patterns text e :
  contact_info (extract_phone patterns text e)
  = with_key "phone" (phone_of patterns text) (contact_info e).
Proof.
  induction patterns as [|pattern patterns IH]; cbn [extract_phone phone_of];
    [reflexivity|].
  destruct (findall false pattern text) as [|[s|l] rest];
    [exact IH|reflexivity..].
Qed.

Lemma contacts_eq text e :
  contacts text e
  = with_key "phone" (phone_of phone_patterns text)
      (with_key "email" (email_of text) (contact_info e)).
Proof.
  unfold contacts. rewrite extract_phone_contact, extract_email_contact.
  reflexivity.
Qed.

Lemma with_keys_twice (p q : option str) (c : gmap string str) :
  with_key "phone" p (with_key "email" q
    (with_key "phone" p (with_key "email" q c)))
  = with_key "phone" p (with_key "email" q c).
Proof.
  destruct p as [p|], q as [q|]; cbn [with_key]; try reflexivity;
    apply map_eq; intros k; rewrite !lookup_insert;
    repeat case_decide; congruence.
Qed.

Lemma reconcile_fields list_set rs doc text e :
  let e1 := reconcile list_set rs doc text e in
  personal_info e1
    = personal_info (_process_spacy_results doc (_process_ner_results rs e))
  /\ contact_info e1
     = with_key "phone" (phone_of phone_patterns text)
         (with_key "email" (email_of text) (contact_info e))
  /\ skills e1 = list_set (found_skills text)
  /\ experience e1 = experience e ++ found_experience text
  /\ education e1 = match education_found text with
                    | [] => education e
                    | found => found
                    end
  /\ projects e1 = projects e
  /\ organizations e1
     = organizations e ++ ner_organizations rs ++ spacy_organizations doc
  /\ locations e1 = locations e ++ ner_locations rs ++ spacy_locations doc.
Proof.
  unfold reconcile.
  destruct (regex_fields list_set text
              (_process_spacy_results doc (_process_ner_results rs e)))
    as (-> & -> & -> & -> & -> & -> & -> & ->).
  rewrite contacts_eq.
  rewrite spacy_keeps_contact_info, ner_keeps_contact_info,
    spacy_keeps_experience, ner_keeps_experience,
    spacy_keeps_education, ner_keeps_education,
    spacy_keeps_projects, ner_keeps_projects,
    spacy_organizations_eq, ner_organizations_eq,
    spacy_locations_eq, ner_locations_eq, <- !app_assoc.
  repeat split; reflexivity.
Qed.

Lemma personal_info_again rs doc e e1 :
  personal_info e1
  = personal_info (_process_spacy_results doc (_process_ner_results rs e)) ->
  personal_info (_process_spacy_results doc (_process_ner_results rs e1))
  = personal_info e1.
Proof.
  intros H.
  set (named_ner := fun x : ner_entity => entity_group x = "PER"%string).
  set (named_span := fun x : span => label_ x = "PERSON"%string).
  destruct (name_missing e1) eqn:M.
  - (* no source provides a name *)
    rewrite (name_missing_ext _ _ H) in M.
    destruct (fold_missing_unnamed process_span named_span spacy_step_name
                doc _ M) as [M' Hdoc].
    destruct (fold_missing_unnamed process_ner_entity named_ner ner_step_name
                rs _ M') as [_ Hrs].
    unfold _process_spacy_results, _process_ner_results.
    rewrite (fold_unnamed_keeps process_span named_span spacy_step_unnamed
               doc _ Hdoc).
    apply (fold_unnamed_keeps process_ner_entity named_ner ner_step_unnamed
             rs _ Hrs).
  - unfold _process_spacy_results, _process_ner_results.
    assert (personal_info (fold_left process_ner_entity rs e1)
            = personal_info e1) as Hn.
    { apply (fold_named_keeps process_ner_entity named_ner ner_step_name),
        M. }
    rewrite (fold_named_keeps process_span named_span spacy_step_name);
      [exact Hn|].
    rewrite (name_missing_ext _ e1 Hn). exact M.
Qed.

(** C4 (as amended).  Merging the same sources again into the merged
    record leaves the personal name, the contact fields, the skills, the
    education and the projects as they are, and appends the organizations,
    the locations and the experience entries of the sources a second time;
    and the merge into the empty record is what [extract_entities]
    returns when no source raises. *)
Theorem repeated_merge
    (list_set : list str -> list str) (ner_results : list ner_entity)
    (doc : list span) (text : str) (e : entities) :
  let e1 := reconcile list_set ner_results doc text e in
  let e2 := reconcile list_set ner_results doc text e1 in
  personal_info e2 = personal_info e1
  /\ contact_info e2 = contact_info e1
  /\ skills e2 = skills e1
  /\ education e2 = education e1
  /\ projects e2 = projects e1
  /\ organizations e2
     = organizations e1
       ++ ner_organizations ner_results ++ spacy_organizations doc
  /\ locations e2
     = locations e1 ++ ner_locations ner_results ++ spacy_locations doc
  /\ experience e2 = experience e1 ++ found_experience text
  /\ (forall self,
        ner_outcome self text = Ok ner_results ->
        spacy_outcome self text = Ok doc ->
        extract_entities list_set self text
        = Ok (reconcile list_set ner_results doc text empty_entities)).
Proof.
  intros e1 e2.
  destruct (reconcile_fields list_set ner_results doc text e)
    as (A1 & A2 & A3 & A4 & A5 & A6 & A7 & A8).
  destruct (reconcile_fields list_set ner_results doc text e1)
    as (B1 & B2 & B3 & B4 & B5 & B6 & B7 & B8).
  fold e1 in A1, A2, A3, A4, A5, A6, A7, A8.
  fold e2 in B1, B2, B3, B4, B5, B6, B7, B8.
  repeat split.
  - rewrite B1. apply (personal_info_again _ _ e), A1.
  - rewrite B2, A2. apply with_keys_twice.
  - congruence.
  - rewrite B5, A5. destruct (education_found text); reflexivity.
  - congruence.
  - exact B7.
  - exact B8.
  - exact B4.
  - intros self Hn Hs. rewrite extract_entities_eq. unfold learned.
    rewrite Hn, Hs. reflexivity.
Qed.

(** C4, the claim as stated fails: merging one organization of the NER
    model and one line of experience twice gives a record that differs
    from the record of a single merge; both lists are doubled. *)
Lemma repeated_merge_duplicates :
  organizations merged_once = [T "Acme"]
  /\ organizations merged_twice = [T "Acme"; T "Acme"]
  /\ experience merged_once = [Experience (T "Developer") (T "Acme")]
  /\ experience merged_twice = [Experience (T "Developer") (T "Acme");
                                Experience (T "Developer") (T "Acme")]
  /\ merged_twice <> merged_once.
Proof.
  repeat split; try (vm_compute; reflexivity).
  intros E. apply (f_equal (fun e => length (organizations e))) in E.
  vm_compute in E. discriminate.
Qed.

(** C8.  Entity recognition never aborts: whatever the two learned sources
    do (return spans, be unavailable, or raise), [extract_entities]
    returns a record, no exception escapes, and the record is the one the
    deterministic matchers produce on top of what the sources that ran
    before a failure have contributed; a source that raises contributes
    nothing. *)
Theorem extract_entities_never_aborts
    (list_set : list str -> list str) (self : parser) (text : str) :
  (exists e0, extract_entities list_set self text
              = Ok (_extract_with_regex list_set text e0))
  /\ (forall msg, ner_outcome self text = Raise msg ->
        extract_entities list_set self text
        = Ok (_extract_with_regex list_set text empty_entities))
  /\ (forall ner_results msg,
        ner_outcome self text = Ok ner_results ->
        spacy_outcome self text = Raise msg ->
        extract_entities list_set self text
        = Ok (_extract_with_regex list_set text
                (_process_ner_results ner_results empty_entities)))
  /\ (forall ner_results doc,
        ner_outcome self text = Ok ner_results ->
        spacy_outcome self text = Ok doc ->
        extract_entities list_set self text
        = Ok (_extract_with_regex list_set text
                (_process_spacy_results doc
                   (_process_ner_results ner_results empty_entities)))).
Proof.
  rewrite extract_entities_eq. unfold learned.
  split; [eexists; reflexivity|].
  split; [intros msg ->; reflexivity|].
  split.
  - intros ner_results msg -> ->. reflexivity.
  - intros ner_results doc -> ->. reflexivity.
Qed.

Lemma extract_entities_never_aborts_witness :
  extract_entities remove_dups failing_ner (T "Jane Doe, jane@example.com")
  = Ok (_extract_with_regex remove_dups (T "Jane Doe, jane@example.com")
          empty_entities).
Proof.
  exact (proj1 (proj2 (extract_entities_never_aborts remove_dups failing_ner
                         (T "Jane Doe, jane@example.com")))
           (T "CUDA out of memory") eq_refl).
Defined.

End EntityFacts.

(** ** Text extraction *)

Module ExtractionFacts.

Import DocumentParser Notions.

Lemma truthy_nonempty (s : str) : truthy s = true <-> s <> [].
Proof. destruct s; simpl; split; congruence. Qed.

Lemma pdf_cases L f :
  _extract_from_pdf L f
  = match snd (first_pass L f), truthy (strip (fst (first_pass L f))) with
    | None, true => (Ok (fst (first_pass L f)), [Called pdfplumber])
    | exn1, _ =>
        let log1 :=
          match exn1 with
          | Some e => [Warning (T "pdfplumber failed: " ++ e
                                ++ T ", trying PyPDF2")]
          | None => []
          end in
        match snd (second_pass L f) with
        | Some e =>
            (Raise (T "Could not extract text from PDF"),
             Called pdfplumber :: log1
             ++ [Called PyPDF2; Error (T "PyPDF2 also failed: " ++ e)])
        | None =>
            (Ok (fst (second_pass L f)),
             Called pdfplumber :: log1 ++ [Called PyPDF2])
        end
    end.
Proof.
  unfold _extract_from_pdf, second_pass, first_pass.
  destruct (read_pdf (pdfplumber_open L (data f)) []) as [t1 x1].
  cbn [fst snd].
  destruct (read_pdf (PyPDF2_PdfReader L (data f)) t1) as [t2 x2].
  cbn [fst snd].
  destruct x1, (truthy (strip t1)), x2; reflexivity.
Qed.

Lemma first_pass_wins_iff L f :
  first_pass_wins L f
  <-> snd (first_pass L f) = None
      /\ truthy (strip (fst (first_pass L f))) = true.
Proof. unfold first_pass_wins. rewrite truthy_nonempty. reflexivity. Qed.

(** C1 (as amended).  PDF extraction returns the text of the pdfplumber
    pass when that pass completes with text that is not only white space.
    Otherwise the PyPDF2 pass runs, on top of the text the first pass
    left; extraction raises exactly when the PyPDF2 pass raises, and the
    error is the fixed message, not the reasons of the strategies; when
    the PyPDF2 pass completes, its text is returned as a success, blank or
    not. *)
Theorem pdf_cascade (L : libraries) (f : uploaded_file) :
  (first_pass_wins L f ->
     _extract_from_pdf L f = (Ok (fst (first_pass L f)), [Called pdfplumber]))
  /\ (~ first_pass_wins L f ->
      forall reason, snd (second_pass L f) = Some reason ->
        fst (_extract_from_pdf L f) = Raise (T "Could not extract text from PDF")
        /\ calls (_extract_from_pdf L f) = [Called pdfplumber; Called PyPDF2])
  /\ (~ first_pass_wins L f ->
      snd (second_pass L f) = None ->
        fst (_extract_from_pdf L f) = Ok (fst (second_pass L f))
        /\ calls (_extract_from_pdf L f) = [Called pdfplumber; Called PyPDF2])
  /\ (forall msg, fst (_extract_from_pdf L f) = Raise msg ->
        msg = T "Could not extract text from PDF"
        /\ ~ first_pass_wins L f
        /\ snd (second_pass L f) <> None).
Proof.
  pose proof (first_pass_wins_iff L f) as W.
  rewrite pdf_cases. unfold calls.
  destruct (snd (first_pass L f)) as [e1|],
           (truthy (strip (fst (first_pass L f)))),
           (snd (second_pass L f)) as [e2|];
    cbn [fst snd List.filter is_call app];
    (split; [|split; [|split]]); intros;
    try (exfalso;
         match goal with H : ~ _ |- _ => apply H, W; split; reflexivity end);
    try match goal with H : first_pass_wins _ _ |- _ =>
          apply W in H; destruct H; congruence
        end;
    repeat split; try congruence;
    rewrite W; intros [? ?]; congruence.
Qed.

Lemma pdf_cascade_witness :
  fst (_extract_from_pdf corrupt_pdf pdf_upload)
  = Raise (T "Could not extract text from PDF")
  /\ calls (_extract_from_pdf corrupt_pdf pdf_upload)
     = [Called pdfplumber; Called PyPDF2].
Proof.
  refine (proj1 (proj2 (pdf_cascade corrupt_pdf pdf_upload)) _
            (T "EOF marker not found") _).
  - intros [H _]. vm_compute in H. discriminate.
  - vm_compute. reflexivity.
Defined.

(** C1, the claim as stated fails.  On a scanned PDF both strategies
    produce only white space, and extraction returns that text as a
    success; on a corrupt PDF both strategies raise, and the error carries
    the fixed message, with neither of the two reasons. *)
Lemma pdf_blank_text_is_success :
  first_pass scanned_pdf pdf_upload = (T "  " ++ nl, None)
  /\ second_pass scanned_pdf pdf_upload = (T "  " ++ nl, None)
  /\ strip (T "  " ++ nl) = []
  /\ _extract_from_pdf scanned_pdf pdf_upload
     = (Ok (T "  " ++ nl), [Called pdfplumber; Called PyPDF2])
  /\ first_pass corrupt_pdf pdf_upload = ([], Some (T "No /Root object"))
  /\ second_pass corrupt_pdf pdf_upload = ([], Some (T "EOF marker not found"))
  /\ fst (_extract_from_pdf corrupt_pdf pdf_upload)
     = Raise (T "Could not extract text from PDF")
  /\ contains (T "No /Root object") (T "Could not extract text from PDF")
     = false
  /\ contains (T "EOF marker not found") (T "Could not extract text from PDF")
     = false.
Proof. repeat split; vm_compute; reflexivity. Qed.

(** *** The media type *)

Lemma pdf_first_call L f : first_call (_extract_from_pdf L f) = Some pdfplumber.
Proof.
  rewrite pdf_cases. unfold first_call, calls.
  destruct (snd (first_pass L f)), (truthy (strip (fst (first_pass L f)))),
    (snd (second_pass L f)); reflexivity.
Qed.

Lemma docx_first_call L f : first_call (_extract_from_docx L f) = Some python_docx.
Proof.
  unfold _extract_from_docx. destruct (docx_Document L (data f)); reflexivity.
Qed.

Lemma txt_first_call f : first_call (_extract_from_txt f) = Some bytes_decode.
Proof.
  unfold _extract_from_txt.
  destruct (try_encodings encodings (data f)); reflexivity.
Qed.

(** The wrapper of [extract_content] adds records of the logger only. *)
Lemma wrapped_first_call (r : outcome str * list event) (log0 : str)
    (wrap : str -> str) (err : str -> event) :
  is_call (err []) = false -> (forall e, is_call (err e) = is_call (err [])) ->
  first_call
    (let '(o, log) := r in
     match o with
     | Ok t => (Ok t, [Info log0] ++ log)
     | Raise e => (Raise (wrap e), [Info log0] ++ log ++ [err e])
     end)
  = first_call r.
Proof.
  intros H0 H. destruct r as [[t|e] log]; unfold first_call, calls;
    cbn [snd app List.filter is_call]; [reflexivity|].
  rewrite List.filter_app. cbn [List.filter]. rewrite H, H0, app_nil_r.
  reflexivity.
Qed.

Lemma extract_content_first_call L f :
  first_call (extract_content L f)
  = if contains (T "application/pdf") (type_ f) then Some pdfplumber
    else if contains (T "wordprocessingml") (type_ f)
            || contains (T "docx") (type_ f) then Some python_docx
    else if contains (T "text/plain") (type_ f) then Some bytes_decode
    else None.
Proof.
  unfold extract_content. cbv zeta.
  rewrite (wrapped_first_call _ _
             (fun e => cross_mark ++ T " Content extraction failed: " ++ e)
             (fun e => Error (T "Content extraction failed: " ++ e)))
    by reflexivity.
  destruct (contains (T "application/pdf") (type_ f)); [apply pdf_first_call|].
  destruct (contains (T "wordprocessingml") (type_ f)
            || contains (T "docx") (type_ f)); [apply docx_first_call|].
  destruct (contains (T "text/plain") (type_ f)); [apply txt_first_call|].
  reflexivity.
Qed.

Lemma valid_upload_type file_data file_type file_name :
  Validators.valid
    (Validators.validate_file_upload file_data file_type file_name) = true ->
  file_type ∈ Validators.allowed_types.
Proof.
  unfold Validators.validate_file_upload. cbv zeta.
  destruct (bool_decide_reflect (file_type ∈ Validators.allowed_types))
    as [H|H]; [auto|].
  cbn [negb].
  repeat match goal with
         | |- context [if ?b then _ else _] => destruct b
         end; cbn; discriminate.
Qed.

(** C3 (as amended).  [extract_content] chooses the format by
    containment: a media type that contains application/pdf goes to the
    PDF cascade; otherwise one that contains wordprocessingml or docx goes
    to the DOCX extractor; otherwise one that contains text/plain goes to
    the decoder; a media type that contains none of the four fails with
    the unsupported-type error before any extraction library is called.
    Each of the three accepted MIME types selects its own format; being
    exactly one of the three is what the upload validator requires. *)
Theorem media_type_dispatch (L : libraries) (f : uploaded_file) :
  (contains (T "application/pdf") (type_ f) = true ->
     first_call (extract_content L f) = Some pdfplumber)
  /\ (contains (T "application/pdf") (type_ f) = false ->
      contains (T "wordprocessingml") (type_ f)
      || contains (T "docx") (type_ f) = true ->
      first_call (extract_content L f) = Some python_docx)
  /\ (contains (T "application/pdf") (type_ f) = false ->
      contains (T "wordprocessingml") (type_ f)
      || contains (T "docx") (type_ f) = false ->
      contains (T "text/plain") (type_ f) = true ->
      first_call (extract_content L f) = Some bytes_decode)
  /\ (contains (T "application/pdf") (type_ f) = false ->
      contains (T "wordprocessingml") (type_ f)
      || contains (T "docx") (type_ f) = false ->
      contains (T "text/plain") (type_ f) = false ->
      extract_content L f
      = (Raise (cross_mark ++ T " Content extraction failed: "
                ++ T "Unsupported file type: " ++ type_ f),
         [Info (T "Processing file type: " ++ type_ f);
          Error (T "Content extraction failed: "
                 ++ T "Unsupported file type: " ++ type_ f)])
      /\ calls (extract_content L f) = [])
  /\ (type_ f = T "application/pdf" ->
      first_call (extract_content L f) = Some pdfplumber)
  /\ (type_ f
      = T "application/vnd.openxmlformats-officedocument.wordprocessingml.document" ->
      first_call (extract_content L f) = Some python_docx)
  /\ (type_ f = T "text/plain" ->
      first_call (extract_content L f) = Some bytes_decode)
  /\ (forall file_data file_name,
        Validators.valid
          (Validators.validate_file_upload file_data (type_ f) file_name)
        = true ->
        type_ f ∈ Validators.allowed_types).
Proof.
  rewrite extract_content_first_call.
  repeat match goal with |- _ /\ _ => split end.
  - intros ->. reflexivity.
  - intros -> ->. reflexivity.
  - intros -> -> ->. reflexivity.
  - intros H1 H2 H3. unfold extract_content, calls. cbv zeta.
    rewrite H1, H2, H3. split; reflexivity.
  - intros ->. reflexivity.
  - intros ->. reflexivity.
  - intros ->. reflexivity.
  - intros file_data file_name. apply valid_upload_type.
Qed.

Lemma media_type_dispatch_witness :
  extract_content one_page_pdf
    (UploadedFile (T "image/png") pdf_bytes)
  = (Raise (cross_mark ++ T " Content extraction failed: "
            ++ T "Unsupported file type: " ++ T "image/png"),
     [Info (T "Processing file type: " ++ T "image/png");
      Error (T "Content extraction failed: "
             ++ T "Unsupported file type: " ++ T "image/png")])
  /\ calls (extract_content one_page_pdf
              (UploadedFile (T "image/png") pdf_bytes)) = [].
Proof.
  refine (proj1 (proj2 (proj2 (proj2
            (media_type_dispatch one_page_pdf
               (UploadedFile (T "image/png") pdf_bytes))))) _ _ _);
    vm_compute; reflexivity.
Defined.

(** C3, the claim as stated fails: a media type that is none of the three
    accepted ones, but contains application/pdf, is not refused; the PDF
    cascade runs on the file and its text is returned. *)
Lemma loose_media_type_is_extracted :
  (type_ loosely_typed_upload ∉ Validators.allowed_types)
  /\ extract_content one_page_pdf loosely_typed_upload
     = (Ok (T "Jane Doe" ++ nl),
        [Info (T "Processing file type: application/pdf-like");
         Called pdfplumber]).
Proof.
  split; [|vm_compute; reflexivity].
  refine (bool_decide_unpack _ _). vm_compute. exact I.
Qed.

(** *** Plain text *)

Lemma try_encodings_first encs content :
  match try_encodings encs content with
  | Some t =>
      exists tried enc later,
        encs = tried ++ enc :: later
        /\ Forall (fun e => decode e content = None) tried
        /\ decode enc content = Some t
  | None => Forall (fun e => decode e content = None) encs
  end.
Proof.
  induction encs as [|enc encs IH]; cbn [try_encodings]; [constructor|].
  destruct (decode enc content) as [t|] eqn:E.
  - exists [], enc, encs. repeat split; [constructor|exact E].
  - destruct (try_encodings encs content) as [t|].
    + destruct IH as (tried & enc' & later & -> & Hall & Hdec).
      exists (enc :: tried), enc', later.
      repeat split; [constructor; assumption|exact Hdec].
    + constructor; assumption.
Qed.

(** C5.  Plain-text extraction never raises: for every byte sequence it
    returns the decoding under the first encoding of the priority list
    utf-8, latin-1, cp1252, iso-8859-1 that decodes without error, and the
    permissive decoding (undecodable bytes dropped) when every encoding of
    the list fails. *)
Theorem plain_text_decoding (f : uploaded_file) :
  encodings = [utf_8; latin_1; cp1252; iso_8859_1]
  /\ exists t, fst (_extract_from_txt f) = Ok t
     /\ ((exists tried enc later,
            encodings = tried ++ enc :: later
            /\ Forall (fun e => decode e (data f) = None) tried
            /\ decode enc (data f) = Some t)
         \/ (Forall (fun e => decode e (data f) = None) encodings
             /\ t = decode_ignore (data f))).
Proof.
  split; [reflexivity|].
  unfold _extract_from_txt. cbv zeta.
  pose proof (try_encodings_first encodings (data f)) as H.
  destruct (try_encodings encodings (data f)) as [t|].
  - exists t. split; [reflexivity|]. left. exact H.
  - eexists. split; [reflexivity|]. right. split; [exact H|reflexivity].
Qed.

(** Since latin-1 decodes every byte sequence, the result is the UTF-8
    decoding when the bytes are well-formed UTF-8 and the Latin-1 decoding
    otherwise. *)
Lemma plain_text_utf8_or_latin1 (f : uploaded_file) :
  fst (_extract_from_txt f)
  = Ok (match decode utf_8 (data f) with
        | Some t => t
        | None => values (data f)
        end).
Proof.
  unfold _extract_from_txt, encodings. cbn [try_encodings].
  destruct (decode utf_8 (data f)); reflexivity.
Qed.

(** A file in Latin-1: the byte E9 is not UTF-8 and decodes to U+00E9. *)
Example latin1_resume_decodes :
  fst (_extract_from_txt (UploadedFile (T "text/plain") [x52; xe9; x73]))
  = Ok [82; 233; 115].
Proof. vm_compute. reflexivity. Qed.

End ExtractionFacts.

(** ** The completeness score *)

Module ValidatorFacts.

Import DocumentParser Validators Notions.

Lemma lstrip_nil (s : str) : lstrip s = [] <-> forallb isspace s = true.
Proof.
  induction s as [|c s IH]; simpl; [tauto|].
  destruct (isspace c); simpl; [exact IH|]. split; discriminate.
Qed.

Lemma lstrip_head (s : str) c r : lstrip s = c :: r -> isspace c = false.
Proof.
  induction s as [|d s IH]; simpl; [discriminate|].
  destruct (isspace d) eqn:E; [exact IH|]. intros [= -> _]. exact E.
Qed.

Lemma forallb_rev' {A} (f : A -> bool) l : forallb f (rev l) = forallb f l.
Proof.
  induction l as [|x l IH]; simpl; [reflexivity|].
  rewrite forallb_app, IH. simpl. rewrite andb_true_r. apply andb_comm.
Qed.

(** [s.strip()] is empty exactly when [s] is white space only. *)
Lemma strip_nil (s : str) : strip s = [] <-> forallb isspace s = true.
Proof.
  unfold strip, rstrip.
  split.
  - intros H. apply (f_equal (@rev N)) in H. rewrite rev_involutive in H.
    simpl in H. apply lstrip_nil in H. rewrite forallb_rev' in H.
    destruct (lstrip s) as [|c r] eqn:E; [apply lstrip_nil, E|].
    apply lstrip_head in E. simpl in H. rewrite E in H. discriminate.
  - intros H. apply lstrip_nil in H. rewrite H. reflexivity.
Qed.

Lemma contains_char c s : contains [c] s = true -> In c s.
Proof.
  induction s as [|d s IH]; simpl; [discriminate|].
  destruct (N.eqb_spec c d) as [->|_]; simpl; auto.
Qed.

Lemma nonspace_strip c s : In c s -> isspace c = false -> strip s <> [].
Proof.
  intros Hin Hc Hs. apply strip_nil in Hs.
  rewrite forallb_forall in Hs. rewrite (Hs c Hin) in Hc. discriminate.
Qed.

Lemma bullets_not_blank content : has_bullets content = true -> strip content <> [].
Proof.
  unfold has_bullets. intros H. apply orb_true_iff in H as [H|H];
    apply contains_char in H; eapply nonspace_strip; eauto.
Qed.

Lemma blank_guard content :
  negb (truthy content) || (len (strip content) =? 0)%Z = true
  <-> strip content = [].
Proof.
  unfold len. destruct content as [|c s]; [simpl; tauto|].
  cbn [truthy negb orb].
  destruct (strip (c :: s)); simpl; split; congruence.
Qed.

Lemma found_sections_range content : (0 <= found_sections content <= 5)%Z.
Proof.
  unfold found_sections, len.
  pose proof (List.filter_length_le
                (fun section => contains (lower section) (lower content))
                sections) as H.
  change (length sections) with 5%nat in H. lia.
Qed.

Lemma score_cases content :
  quality_score (validate_content_extraction content)
  = if negb (truthy content) || (len (strip content) =? 0)%Z then 0%Z
    else Z.min (weighted_checks content) 100.
Proof.
  unfold validate_content_extraction, weighted_checks, has_bullets.
  destruct (negb (truthy content) || (len (strip content) =? 0)%Z);
    [reflexivity|].
  cbv zeta. cbn [quality_score]. f_equal.
  destruct (len content >? 100)%Z, (found email_pattern content),
    (found phone_pattern content),
    (contains bullet content || contains (T "*") content
     || (count 10 content >? 5)%Z); cbn [b2z]; lia.
Qed.

(** C6 (as amended).  For a text that is empty or white space only the
    score is 0, and the score always lies in [0,100].  For every other
    text within the tables it is the sum of the weighted checks (20 for
    more than 100 characters, 15 for each of the five section words
    present, 15 for an email, 10 for a phone number, 10 for a bullet
    marker or more than 5 newline characters) capped at 100; a text with
    the five section words, an email, a phone number and a bullet marker
    scores 100, and a text of at most 100 characters with none of the
    signals scores 0. *)
Theorem completeness_score (content : str) :
  (strip content = [] ->
     quality_score (validate_content_extraction content) = 0%Z)
  /\ (0 <= quality_score (validate_content_extraction content) <= 100)%Z
  /\ (in_tables content = true ->
      (strip content <> [] ->
       quality_score (validate_content_extraction content)
       = Z.min (weighted_checks content) 100)
      /\ (found_sections content = 5%Z ->
          found email_pattern content = true ->
          found phone_pattern content = true ->
          has_bullets content = true ->
          quality_score (validate_content_extraction content) = 100%Z)
      /\ ((len content <= 100)%Z ->
          found_sections content = 0%Z ->
          found email_pattern content = false ->
          found phone_pattern content = false ->
          has_bullets content = false ->
          (count 10 content <= 5)%Z ->
          quality_score (validate_content_extraction content) = 0%Z)).
Proof.
  rewrite score_cases.
  pose proof (blank_guard content) as G.
  pose proof (found_sections_range content) as R.
  assert (0 <= weighted_checks content)%Z as P.
  { unfold weighted_checks.
    destruct (len content >? 100)%Z, (found email_pattern content),
      (found phone_pattern content),
      (has_bullets content || (count 10 content >? 5)%Z); cbn [b2z]; lia. }
  destruct (negb (truthy content) || (len (strip content) =? 0)%Z) eqn:E.
  - assert (strip content = []) as B by (apply G; reflexivity).
    split; [reflexivity|]. split; [lia|]. intros _.
    repeat split; try lia; try congruence.
    intros _ _ _ H. apply bullets_not_blank in H. contradiction.
  - assert (strip content <> []) as B
      by (intros B; apply G in B; discriminate).
    split; [congruence|]. split; [lia|]. intros _.
    repeat split; try lia; try congruence.
    + intros H1 H2 H3 H4. unfold weighted_checks.
      rewrite H1, H2, H3, H4. cbn [orb b2z].
      destruct (len content >? 100)%Z; cbn [b2z]; lia.
    + intros H1 H2 H3 H4 H5 H6. unfold weighted_checks.
      rewrite H2, H3, H4, H5.
      destruct (Z.gtb_spec (len content) 100); [lia|].
      destruct (Z.gtb_spec (count 10 content) 5); [lia|].
      cbn [orb b2z]. lia.
Qed.

Lemma completeness_score_witness :
  quality_score (validate_content_extraction full_resume) = 100%Z
  /\ quality_score (validate_content_extraction bulleted_resume) = 100%Z
  /\ quality_score (validate_content_extraction short_note) = 0%Z.
Proof.
  split; [|split].
  - refine (proj1 (proj2 (proj2 (proj2 (completeness_score full_resume)) _))
              _ _ _ _); vm_compute; reflexivity.
  - refine (proj1 (proj2 (proj2 (proj2 (completeness_score bulleted_resume))
                            _))
              _ _ _ _); vm_compute; reflexivity.
  - refine (proj2 (proj2 (proj2 (proj2 (completeness_score short_note)) _))
              _ _ _ _ _ _); vm_compute; congruence.
Defined.

(** C6, the claim as stated fails.  Six lines separated by five newline
    characters are more than 5 newline-delimited lines, which the
    specification scores 10, and the code scores 0; seven empty lines are
    scored 10 by the specification and 0 by the code, which gives every
    blank text the score 0. *)
Lemma score_differs_from_specification :
  lines six_lines = 6%Z
  /\ spec_completeness_score six_lines = 10%Z
  /\ quality_score (validate_content_extraction six_lines) = 0%Z
  /\ spec_completeness_score blank_lines = 10%Z
  /\ quality_score (validate_content_extraction blank_lines) = 0%Z.
Proof. repeat split; vm_compute; reflexivity. Qed.

End ValidatorFacts.

(** ** More on the parser: names, organizations, education, warnings *)

Module ParserFacts.

Import DocumentParser Notions EntityFacts.

(** *** A match consumes at least the minimum length of its pattern *)

Definition consuming (d : nat) (k : mstate -> option mstate) : Prop :=
  forall s s1, k s = Some s1 -> (length (rest s1) + d <= length (rest s))%nat.

Lemma consuming_le d d' k : (d' <= d)%nat -> consuming d k -> consuming d' k.
Proof. intros Hd Hk s s1 H. apply Hk in H. lia. Qed.

Lemma lit_match_length ic l p s p' s' :
  lit_match ic l p s = Some (p', s') -> length s = (length l + length s')%nat.
Proof.
  revert p s. induction l as [|a l IH]; intros p s; simpl.
  - intros [= _ ->]. reflexivity.
  - destruct s as [|b s]; [discriminate|].
    destruct (char_eq ic a b); [|discriminate].
    intros H. apply IH in H. simpl. lia.
Qed.

Lemma m_consumes ic r :
  forall k d, consuming d k -> consuming (d + min_len r) (m ic r k).
Proof.
  induction r as [l|items|a IHa b IHb|a IHa b IHb|lo hi a IHa|i a IHa|];
    intros k d Hk s s1; cbn [m min_len].
  - destruct (lit_match ic l (prev s) (rest s)) as [[p s']|] eqn:E;
      [|discriminate].
    intros H. apply Hk in H. apply lit_match_length in E. simpl in H. lia.
  - destruct (rest s) as [|c s'] eqn:E; [discriminate|].
    destruct (in_set ic items c); [|discriminate].
    intros H. apply Hk in H. simpl in H. simpl. lia.
  - intros H. apply (IHa _ _ (IHb _ _ Hk)) in H. lia.
  - destruct (m ic a k s) as [s2|] eqn:E.
    + intros [= <-]. apply (IHa _ _ Hk) in E. lia.
    + intros H. apply (IHb _ _ Hk) in H. lia.
  - match goal with
    | |- ?f ?fuel ?c ?l s = _ -> _ =>
        set (loop := f); set (n := fuel); clearbody n;
        replace (lo * min_len a)%nat with ((lo - c) * min_len a)%nat
          by (rewrite Nat.sub_0_r; reflexivity);
        generalize c, l
    end.
    revert s s1. induction n as [|n IHn]; intros s s1 cnt last.
    + subst loop. cbn beta iota.
      destruct (Nat.leb_spec lo cnt) as [Hle|_]; [|discriminate].
      intros H. apply Hk in H. replace (lo - cnt)%nat with 0%nat by lia. lia.
    + assert (consuming (d + (lo - S cnt) * min_len a)
                (loop n (S cnt) (Some (length (rest s))))) as Hloop.
      { intros s2 s3. apply IHn. }
      change (loop (S n) cnt last s) with
        (if (cnt <? lo)%nat
         then m ic a (loop n (S cnt) (Some (length (rest s)))) s
         else if match hi with Some h => (cnt <? h)%nat | None => true end
                 && match last with
                    | Some p => negb (p =? length (rest s))%nat
                    | None => true
                    end
         then match m ic a (loop n (S cnt) (Some (length (rest s)))) s with
              | Some s' => Some s'
              | None => k s
              end
         else k s).
      destruct (Nat.ltb_spec cnt lo) as [Hlt|Hge].
      * intros H. apply (IHa _ _ Hloop) in H.
        replace (lo - cnt)%nat with (S (lo - S cnt)) by lia. lia.
      * replace (lo - cnt)%nat with 0%nat by lia.
        destruct (_ && _);
          [|intros H; apply Hk in H; lia].
        destruct (m ic a (loop n (S cnt) (Some (length (rest s)))) s)
          as [s2|] eqn:E.
        -- intros [= <-]. apply (IHa _ _ Hloop) in E. lia.
        -- intros H. apply Hk in H. lia.
  - intros H.
    assert (consuming d
              (fun s' => k (MState (prev s') (rest s')
                                   ((i, consumed s s') :: caps s')))) as Hk'.
    { intros s' s2 H'. apply Hk in H'. exact H'. }
    apply (IHa _ _ Hk') in H. exact H.
  - destruct (xorb _ _); [|discriminate].
    intros H. apply Hk in H. lia.
Qed.

(** Every match is at least as long as the minimum length of the
    pattern. *)
Lemma match_at_min_len ic r p s x :
  match_at ic r p s = Some x -> (min_len r <= length (whole x))%nat.
Proof.
  unfold match_at.
  destruct (m ic r Some (MState p s [])) as [s1|] eqn:E; [|discriminate].
  intros [= <-]. cbn [whole].
  assert (consuming 0 Some) as H0 by (intros s2 s3 [= ->]; lia).
  apply (m_consumes ic r _ _ H0) in E. unfold consumed. cbn [rest] in *.
  rewrite length_take. lia.
Qed.

Lemma search_min_len ic r p s x :
  search_from ic r p s = Some x -> (min_len r <= length (whole x))%nat.
Proof.
  revert p. induction s as [|c s IH]; intros p; cbn [search_from];
    destruct (match_at ic r p _) eqn:E.
  - intros [= <-]. eapply match_at_min_len, E.
  - discriminate.
  - intros [= <-]. eapply match_at_min_len, E.
  - apply IH.
Qed.

(** *** The personal name *)

Lemma ner_name rs e :
  personal_info (_process_ner_results rs e)
  = if name_missing e then with_key "name" (ner_person rs) (personal_info e)
    else personal_info e.
Proof.
  unfold _process_ner_results, ner_person.
  revert e. induction rs as [|[g w] rs IH]; intros e;
    cbn [fold_left List.find].
  - destruct (name_missing e); reflexivity.
  - rewrite IH. unfold process_ner_entity. cbn [entity_group word].
    destruct (String.eqb_spec g "PER") as [->|_].
    + destruct (name_missing e) eqn:M; [|rewrite M; reflexivity].
      unfold name_missing, set_personal_info. cbn [personal_info].
      rewrite lookup_insert_eq. reflexivity.
    + destruct (String.eqb g "ORG"); [reflexivity|].
      destruct (String.eqb g "LOC"); reflexivity.
Qed.

Lemma spacy_name doc e :
  personal_info (_process_spacy_results doc e)
  = if name_missing e then with_key "name" (spacy_person doc) (personal_info e)
    else personal_info e.
Proof.
  unfold _process_spacy_results, spacy_person.
  revert e. induction doc as [|[g w] doc IH]; intros e;
    cbn [fold_left List.find].
  - destruct (name_missing e); reflexivity.
  - rewrite IH. unfold process_span. cbn [label_ text].
    destruct (String.eqb_spec g "PERSON") as [->|_].
    + destruct (name_missing e) eqn:M; cbn [andb]; [|rewrite ?M].
      * unfold name_missing, set_personal_info. cbn [personal_info].
        rewrite lookup_insert_eq. reflexivity.
      * change (String.eqb "PERSON" "ORG") with false.
        change (String.eqb "PERSON" "GPE" || String.eqb "PERSON" "LOC")
          with false.
        cbn iota. rewrite M. reflexivity.
    + cbn [andb].
      destruct (String.eqb g "ORG"); [reflexivity|].
      destruct (String.eqb g "GPE" || String.eqb g "LOC"); reflexivity.
Qed.

Lemma extract_entities_learned list_set self text ner_results doc :
  ner_outcome self text = Ok ner_results ->
  spacy_outcome self text = Ok doc ->
  extract_entities list_set self text
  = Ok (reconcile list_set ner_results doc text empty_entities).
Proof.
  intros Hn Hs. rewrite extract_entities_eq. unfold learned.
  rewrite Hn, Hs. reflexivity.
Qed.

(** X1.  The personal name is first-wins across the learned sources: it is
    the first PER entity of the NER model, and the first PERSON entity of
    spaCy only when the NER model names nobody; the deterministic
    matchers never set it.  The personal information holds no other key. *)
Theorem name_first_source_wins
    (list_set : list str -> list str) (self : parser) (text : str)
    (ner_results : list ner_entity) (doc : list span) :
  ner_outcome self text = Ok ner_results ->
  spacy_outcome self text = Ok doc ->
  exists e, extract_entities list_set self text = Ok e
    /\ personal_info e
       = with_key "name"
           (match ner_person ner_results with
            | Some name => Some name
            | None => spacy_person doc
            end) ∅.
Proof.
  intros Hn Hs.
  rewrite (extract_entities_learned _ _ _ _ _ Hn Hs).
  eexists. split; [reflexivity|].
  destruct (reconcile_fields list_set ner_results doc text empty_entities)
    as (-> & _).
  assert (personal_info (_process_ner_results ner_results empty_entities)
          = with_key "name" (ner_person ner_results) ∅) as P
    by (rewrite ner_name; reflexivity).
  rewrite spacy_name. unfold name_missing. rewrite P.
  destruct (ner_person ner_results) as [name|]; cbn [with_key].
  - rewrite lookup_insert_eq. reflexivity.
  - rewrite lookup_empty. reflexivity.
Qed.

Lemma name_first_source_wins_witness :
  exists e, extract_entities remove_dups both_models (T "Jane Doe, Acme") = Ok e
    /\ personal_info e = with_key "name" (Some (T "Jane Doe")) ∅.
Proof.
  exact (name_first_source_wins remove_dups both_models (T "Jane Doe, Acme")
           [NerEntity "ORG" (T "Acme"); NerEntity "PER" (T "Jane Doe")]
           [Span "PERSON" (T "J. Doe"); Span "ORG" (T "Acme");
            Span "GPE" (T "Paris")] eq_refl eq_refl).
Defined.

(** X2.  Organizations and locations are the ORG and LOC entities of the
    NER model followed by the ORG and the GPE or LOC entities of spaCy,
    each in the order found; an entity that both sources report is listed
    twice, and the deterministic matchers add none. *)
Theorem learned_entities_in_source_order
    (list_set : list str -> list str) (self : parser) (text : str)
    (ner_results : list ner_entity) (doc : list span) :
  ner_outcome self text = Ok ner_results ->
  spacy_outcome self text = Ok doc ->
  exists e, extract_entities list_set self text = Ok e
    /\ organizations e
       = ner_organizations ner_results ++ spacy_organizations doc
    /\ locations e = ner_locations ner_results ++ spacy_locations doc.
Proof.
  intros Hn Hs.
  rewrite (extract_entities_learned _ _ _ _ _ Hn Hs).
  eexists. split; [reflexivity|].
  destruct (reconcile_fields list_set ner_results doc text empty_entities)
    as (_ & _ & _ & _ & _ & _ & -> & ->).
  split; reflexivity.
Qed.

Lemma learned_entities_in_source_order_witness :
  exists e, extract_entities remove_dups both_models (T "Jane Doe, Acme") = Ok e
    /\ organizations e = [T "Acme"; T "Acme"]
    /\ locations e = [T "Paris"].
Proof.
  exact (learned_entities_in_source_order remove_dups both_models
           (T "Jane Doe, Acme")
           [NerEntity "ORG" (T "Acme"); NerEntity "PER" (T "Jane Doe")]
           [Span "PERSON" (T "J. Doe"); Span "ORG" (T "Acme");
            Span "GPE" (T "Paris")] eq_refl eq_refl).
Defined.

(** X3.  A learned source that raises ends the [try] block.  When the NER
    model raises, spaCy is not consulted either: the record has no name,
    no organization and no location, whatever spaCy would have found.
    When spaCy raises, what the NER model contributed stays. *)
Theorem failing_source_ends_learned_extraction
    (list_set : list str -> list str) (self : parser) (text : str) :
  (forall msg, ner_outcome self text = Raise msg ->
     exists e, extract_entities list_set self text = Ok e
       /\ personal_info e = ∅ /\ organizations e = [] /\ locations e = [])
  /\ (forall ner_results msg,
        ner_outcome self text = Ok ner_results ->
        spacy_outcome self text = Raise msg ->
        exists e, extract_entities list_set self text = Ok e
          /\ personal_info e = with_key "name" (ner_person ner_results) ∅
          /\ organizations e = ner_organizations ner_results
          /\ locations e = ner_locations ner_results).
Proof.
  split.
  - intros msg Hn. rewrite extract_entities_eq. unfold learned. rewrite Hn.
    eexists. split; [reflexivity|].
    destruct (regex_fields list_set text empty_entities)
      as (-> & _ & _ & _ & _ & _ & -> & ->).
    repeat split; reflexivity.
  - intros ner_results msg Hn Hs.
    rewrite extract_entities_eq. unfold learned. rewrite Hn, Hs.
    eexists. split; [reflexivity|].
    destruct (regex_fields list_set text
                (_process_ner_results ner_results empty_entities))
      as (-> & _ & _ & _ & _ & _ & -> & ->).
    rewrite ner_name, ner_organizations_eq, ner_locations_eq.
    repeat split; reflexivity.
Qed.

Lemma failing_source_ends_learned_extraction_witness :
  exists e, extract_entities remove_dups failing_ner (T "Jane Doe, Acme") = Ok e
    /\ personal_info e = ∅ /\ organizations e = [] /\ locations e = [].
Proof.
  exact (proj1 (failing_source_ends_learned_extraction remove_dups failing_ner
                  (T "Jane Doe, Acme")) (T "CUDA out of memory") eq_refl).
Defined.

(** *** Education *)

Lemma learned_education self text : education (learned self text) = [].
Proof.
  unfold learned. destruct (ner_outcome self text); [|reflexivity].
  destruct (spacy_outcome self text);
    rewrite ?spacy_keeps_education, ner_keeps_education; reflexivity.
Qed.

Lemma filter_sublist {A} (f : A -> bool) (l : list A) :
  List.filter f l `sublist_of` l.
Proof.
  induction l as [|x l IH]; simpl; [constructor|].
  destruct (f x); [apply sublist_skip|apply sublist_cons]; exact IH.
Qed.

Lemma education_keywords_distinct : NoDup education_keywords.
Proof. refine (bool_decide_unpack _ _). vm_compute. exact I. Qed.

(** X4.  The education list is the education dictionary filtered by the
    text: a keyword is listed exactly when its lower case occurs in the
    lower case of the text, in the dictionary's casing and order and
    without repetition, whatever the learned sources do. *)
Theorem education_from_dictionary
    (list_set : list str -> list str) (self : parser) (text : str) :
  exists e, extract_entities list_set self text = Ok e
    /\ (forall keyword,
          keyword ∈ education e
          <-> keyword ∈ education_keywords
              /\ contains (lower keyword) (lower text) = true)
    /\ education e `sublist_of` education_keywords
    /\ NoDup (education e).
Proof.
  rewrite extract_entities_eq. eexists. split; [reflexivity|].
  destruct (regex_fields list_set text (learned self text))
    as (_ & _ & _ & _ & -> & _).
  rewrite learned_education.
  assert (match education_found text with
          | [] => []
          | found => found
          end = education_found text) as -> by (destruct (education_found text); reflexivity).
  unfold education_found. split; [|split].
  - intros keyword. rewrite !list_elem_of_In, filter_In. reflexivity.
  - apply filter_sublist.
  - eapply sublist_NoDup; [apply education_keywords_distinct|].
    apply filter_sublist.
Qed.

(** *** The warnings of [validate_extraction] *)

Lemma validate_extraction_eq e :
  validate_extraction e
  = ExtractionReport true
      (flag (not_get "email" (contact_info e)) "No email address found"
       ++ flag (not_get "phone" (contact_info e)) "No phone number found"
       ++ flag (is_nil (skills e)) "No skills detected"
       ++ flag (is_nil (experience e)) "No work experience detected")
      (flag (not_get "email" (contact_info e)) "Consider adding your email address"
       ++ flag (not_get "phone" (contact_info e)) "Consider adding your phone number"
       ++ flag (is_nil (skills e)) "Consider adding a skills section"
       ++ flag (is_nil (experience e)) "Consider adding work experience details").
Proof.
  unfold validate_extraction.
  destruct (not_get "email" (contact_info e)),
    (not_get "phone" (contact_info e)), (skills e), (experience e);
    reflexivity.
Qed.

Lemma flagged (b1 b2 b3 b4 : bool) :
  let warnings :=
    flag b1 "No email address found" ++ flag b2 "No phone number found"
    ++ flag b3 "No skills detected" ++ flag b4 "No work experience detected" in
  (T "No email address found" ∈ warnings <-> b1 = true)
  /\ (T "No phone number found" ∈ warnings <-> b2 = true)
  /\ (T "No skills detected" ∈ warnings <-> b3 = true)
  /\ (T "No work experience detected" ∈ warnings <-> b4 = true).
Proof.
  destruct b1, b2, b3, b4; cbn [flag app];
    repeat split; try reflexivity; try discriminate;
    try (intros _; refine (bool_decide_unpack _ _); vm_compute; exact I);
    intros H; exfalso; revert H; refine (bool_decide_unpack _ _);
    vm_compute; exact I.
Qed.

Lemma email_of_search text :
  email_of text
  = match search true email_pattern text with
    | Some x => Some (whole x)
    | None => None
    end.
Proof.
  unfold email_of.
  destruct (search true email_pattern text) as [x|] eqn:E.
  - destruct (findall_email_first text x E) as [rest ->]. reflexivity.
  - unfold findall, finditer. unfold search in E.
    rewrite <- scan_head in E.
    destruct (scan true email_pattern 0 None text); [reflexivity|discriminate].
Qed.

Lemma email_missing_iff text (c : gmap string str) :
  c !! "email"%string = None ->
  not_get "email"
    (with_key "phone" (phone_of phone_patterns text)
       (with_key "email" (email_of text) c)) = true
  <-> search true email_pattern text = None.
Proof.
  intros Hc. unfold not_get.
  assert (forall m : gmap string str,
            with_key "phone" (phone_of phone_patterns text) m !! "email"%string
            = m !! "email"%string) as ->.
  { intros m. destruct (phone_of phone_patterns text); cbn [with_key];
      [apply lookup_insert_ne; discriminate|reflexivity]. }
  rewrite email_of_search.
  destruct (search true email_pattern text) as [x|] eqn:E; cbn [with_key].
  - rewrite lookup_insert_eq.
    apply search_min_len in E. change (min_len email_pattern) with 6%nat in E.
    destruct (whole x); [simpl in E; lia|]. simpl. split; discriminate.
  - rewrite Hc. tauto.
Qed.

(** X5.  The report of [validate_extraction] on the record of a text
    never says invalid, and pairs every warning with a suggestion.  On a
    text within the tables it warns about a missing email exactly when
    the email pattern has no match in the text, about missing skills
    exactly when no skill keyword occurs in the text, about missing
    experience exactly when neither experience pattern matches, and about
    a missing phone number exactly when no phone pattern matches or the
    kept value is the empty string. *)
Theorem extraction_warnings
    (list_set : list str -> list str) (self : parser) (text : str)
    (Hset : forall l, list_set l ≡ₚ remove_dups l) :
  exists e, extract_entities list_set self text = Ok e
    /\ report_valid (validate_extraction e) = true
    /\ length (report_suggestions (validate_extraction e))
       = length (report_warnings (validate_extraction e))
    /\ (in_tables text = true ->
        (T "No email address found" ∈ report_warnings (validate_extraction e)
         <-> search true email_pattern text = None)
        /\ (T "No phone number found"
              ∈ report_warnings (validate_extraction e)
            <-> phone_of phone_patterns text = None
                \/ phone_of phone_patterns text = Some [])
        /\ (T "No skills detected" ∈ report_warnings (validate_extraction e)
            <-> found_skills text = [])
        /\ (T "No work experience detected"
              ∈ report_warnings (validate_extraction e)
            <-> found_experience text = [])).
Proof.
  rewrite extract_entities_eq. eexists. split; [reflexivity|].
  rewrite validate_extraction_eq. cbn [report_valid report_warnings
                                        report_suggestions].
  destruct (regex_fields list_set text (learned self text))
    as (_ & -> & -> & -> & _).
  rewrite contacts_eq, learned_contact_info, learned_experience. cbn [app].
  set (c := with_key "phone" (phone_of phone_patterns text)
              (with_key "email" (email_of text) ∅)).
  destruct (flagged (not_get "email" c) (not_get "phone" c)
              (is_nil (list_set (found_skills text)))
              (is_nil (found_experience text))) as (F1 & F2 & F3 & F4).
  cbv zeta in F1, F2, F3, F4.
  split; [reflexivity|]. split.
  { destruct (not_get "email" c), (not_get "phone" c),
      (is_nil (list_set (found_skills text))),
      (is_nil (found_experience text)); reflexivity. }
  intros _. split; [|split; [|split]].
  - rewrite F1. subst c. apply email_missing_iff. apply lookup_empty.
  - rewrite F2. subst c. unfold not_get.
    destruct (phone_of phone_patterns text) as [[|d v]|]; cbn [with_key].
    + rewrite lookup_insert_eq. simpl. split; auto.
    + rewrite lookup_insert_eq. simpl.
      split; [discriminate|intros [H|H]; discriminate].
    + destruct (email_of text); cbn [with_key];
        rewrite ?lookup_insert_ne, lookup_empty by discriminate;
        split; auto.
  - rewrite F3.
    pose proof (list_set_found list_set text Hset) as Hp.
    destruct (list_set (found_skills text)) as [|k l] eqn:E; simpl.
    + apply Permutation_nil_l in Hp. rewrite <- Hp. tauto.
    + split; [discriminate|]. intros H. rewrite H in Hp.
      apply Permutation_nil_r in Hp. discriminate.
  - rewrite F4. destruct (found_experience text); simpl; split; congruence.
Qed.

Lemma extraction_warnings_witness :
  exists e, extract_entities remove_dups no_models
              (T "Jane Doe, jane@example.com") = Ok e
    /\ report_valid (validate_extraction e) = true
    /\ length (report_suggestions (validate_extraction e))
       = length (report_warnings (validate_extraction e))
    /\ (T "No email address found" ∈ report_warnings (validate_extraction e)
        <-> search true email_pattern (T "Jane Doe, jane@example.com") = None)
    /\ (T "No phone number found" ∈ report_warnings (validate_extraction e)
        <-> phone_of phone_patterns (T "Jane Doe, jane@example.com") = None
            \/ phone_of phone_patterns (T "Jane Doe, jane@example.com")
               = Some [])
    /\ (T "No skills detected" ∈ report_warnings (validate_extraction e)
        <-> found_skills (T "Jane Doe, jane@example.com") = [])
    /\ (T "No work experience detected"
          ∈ report_warnings (validate_extraction e)
        <-> found_experience (T "Jane Doe, jane@example.com") = []).
Proof.
  destruct (extraction_warnings remove_dups no_models
              (T "Jane Doe, jane@example.com")
              (fun l => Permutation_refl (remove_dups l)))
    as (e & He & Hv & Hl & Hw).
  exists e. split; [exact He|]. split; [exact Hv|]. split; [exact Hl|].
  apply Hw. vm_compute. reflexivity.
Defined.

(** *** [load_models] *)

(** X6.  After [load_models] the parser has both models or none: the two
    are available exactly when spaCy loads (at once, or after a
    successful download when the first load raised [OSError]) and the
    HuggingFace pipeline is built; any other outcome leaves the parser
    with no model, and then entity extraction is the deterministic
    matchers alone. *)
Theorem load_models_all_or_nothing (S : model_libraries) :
  (nlp (fst (load_models S)) = None
   <-> ner_pipeline (fst (load_models S)) = None)
  /\ (nlp (fst (load_models S)) <> None
      <-> (exists pipeline, transformers_pipeline S = Ok pipeline)
          /\ ((exists model, spacy_load S = Loaded model)
              \/ (exists msg u model,
                    spacy_load S = LoadOSError msg
                    /\ spacy_cli_download S = Ok u
                    /\ spacy_load_again S = Ok model)))
  /\ (nlp (fst (load_models S)) = None ->
      forall list_set text,
        extract_entities list_set (fst (load_models S)) text
        = Ok (_extract_with_regex list_set text empty_entities)).
Proof.
  unfold load_models.
  destruct S as [[model|e1|e1] [u|e2] [model2|e3] [pipeline|e4]];
    cbn [spacy_load spacy_cli_download spacy_load_again transformers_pipeline
         fst nlp ner_pipeline];
    (split; [|split]);
    try (intros H; try discriminate H; intros list_set text;
         rewrite extract_entities_eq; reflexivity);
    split; intros H; try congruence; eauto 10;
    try (exfalso; apply H; reflexivity);
    repeat match goal with
           | H : _ /\ _ |- _ => destruct H
           | H : _ \/ _ |- _ => destruct H
           | H : exists _, _ |- _ => destruct H
           end; congruence.
Qed.

Lemma load_models_all_or_nothing_witness :
  extract_entities remove_dups (fst (load_models offline_models))
    (T "Jane Doe, jane@example.com")
  = Ok (_extract_with_regex remove_dups (T "Jane Doe, jane@example.com")
          empty_entities).
Proof.
  exact (proj2 (proj2 (load_models_all_or_nothing offline_models)) eq_refl
           remove_dups (T "Jane Doe, jane@example.com")).
Defined.

End ParserFacts.

(** ** More on text extraction *)

Module MoreExtractionFacts.

Import DocumentParser Notions ExtractionFacts.

(** *** DOCX *)

Lemma forallb_concat {A} (f : A -> bool) (l : list (list A)) :
  forallb f (concat l) = forallb (forallb f) l.
Proof.
  induction l as [|x l IH]; simpl; [reflexivity|].
  rewrite forallb_app, IH. reflexivity.
Qed.

Lemma forallb_map {A B} (f : B -> bool) (g : A -> B) (l : list A) :
  forallb f (List.map g l) = forallb (fun x => f (g x)) l.
Proof.
  induction l as [|x l IH]; simpl; [reflexivity|]. rewrite IH. reflexivity.
Qed.

Lemma forallb_ext {A} (f g : A -> bool) (l : list A) :
  (forall x, f x = g x) -> forallb f l = forallb g l.
Proof.
  intros H. induction l as [|x l IH]; simpl; [reflexivity|].
  rewrite H, IH. reflexivity.
Qed.

Lemma forallb_negb_existsb {A} (f : A -> bool) (l : list A) :
  forallb (fun x => negb (f x)) l = negb (existsb f l).
Proof.
  induction l as [|x l IH]; simpl; [reflexivity|].
  rewrite IH. destruct (f x); reflexivity.
Qed.

Lemma blank_unreadable (s : str) :
  forallb isspace s = negb (FileUpload.readable s).
Proof.
  unfold FileUpload.readable.
  destruct (strip s) as [|c r] eqn:E; simpl.
  - apply ValidatorFacts.strip_nil, E.
  - destruct (forallb isspace s) eqn:F; [|reflexivity].
    apply ValidatorFacts.strip_nil in F. congruence.
Qed.

Lemma paragraph_text_blank p :
  forallb isspace (paragraph_text p) = negb (FileUpload.readable p).
Proof.
  unfold paragraph_text.
  pose proof (blank_unreadable p) as H. unfold FileUpload.readable in *.
  destruct (truthy (strip p)); [|reflexivity].
  rewrite forallb_app, H. reflexivity.
Qed.

Lemma cell_text_blank c :
  forallb isspace (cell_text c) = negb (FileUpload.readable c).
Proof.
  unfold cell_text.
  pose proof (blank_unreadable c) as H. unfold FileUpload.readable in *.
  destruct (truthy (strip c)); [|reflexivity].
  rewrite forallb_app, H. reflexivity.
Qed.

Lemma row_text_blank row :
  forallb isspace (row_text row) = negb (existsb FileUpload.readable row).
Proof.
  unfold row_text. rewrite forallb_app, forallb_concat, forallb_map.
  rewrite (forallb_ext _ (fun c => negb (FileUpload.readable c)))
    by (intros c; apply cell_text_blank).
  rewrite forallb_negb_existsb. simpl. apply andb_true_r.
Qed.

Lemma docx_text_blank doc :
  forallb isspace
    (concat (List.map paragraph_text (paragraphs doc))
     ++ concat (List.map (fun table => concat (List.map row_text table))
                         (tables doc)))
  = negb (docx_readable doc).
Proof.
  unfold docx_readable.
  rewrite forallb_app, !forallb_concat, !forallb_map.
  rewrite (forallb_ext _ (fun p => negb (FileUpload.readable p)))
    by (intros p; apply paragraph_text_blank).
  rewrite forallb_negb_existsb.
  rewrite (forallb_ext
             (fun table => forallb isspace (concat (List.map row_text table)))
             (fun table => negb (existsb (fun row =>
                                            existsb FileUpload.readable row)
                                         table))).
  - rewrite forallb_negb_existsb. rewrite negb_orb. reflexivity.
  - intros table. rewrite forallb_concat, forallb_map.
    rewrite (forallb_ext _ (fun row =>
                              negb (existsb FileUpload.readable row)))
      by (intros row; apply row_text_blank).
    apply forallb_negb_existsb.
Qed.

Lemma docx_opened (L : libraries) (f : uploaded_file) (doc : document) :
  docx_Document L (data f) = Ok doc ->
  exists text, fst (_extract_from_docx L f) = Ok text
    /\ (strip text = [] <-> docx_readable doc = false).
Proof.
  intros Hdoc. unfold _extract_from_docx. rewrite Hdoc.
  eexists. split; [reflexivity|].
  rewrite ValidatorFacts.strip_nil, docx_text_blank.
  destruct (docx_readable doc); simpl; split; congruence.
Qed.

(** X7.  DOCX extraction raises exactly when python-docx cannot open the
    file, with the library's message behind a fixed prefix.  Otherwise it
    succeeds, and the text it returns is blank exactly when no paragraph
    and no table cell of the document has readable text. *)
Theorem docx_extraction_blank_iff (L : libraries) (f : uploaded_file) :
  match docx_Document L (data f) with
  | Ok doc =>
      exists text, fst (_extract_from_docx L f) = Ok text
        /\ (strip text = [] <-> docx_readable doc = false)
  | Raise e =>
      fst (_extract_from_docx L f) = Raise (T "DOCX extraction failed: " ++ e)
  end.
Proof.
  destruct (docx_Document L (data f)) as [doc|e] eqn:Hdoc.
  - exact (docx_opened L f doc Hdoc).
  - unfold _extract_from_docx. rewrite Hdoc. reflexivity.
Qed.

(** *** PDF *)

Lemma read_pages_app ps acc :
  read_pages ps acc
  = (acc ++ fst (read_pages ps []), snd (read_pages ps [])).
Proof.
  revert acc. induction ps as [|[[t|]|msg] ps IH]; intros acc;
    cbn [read_pages fst snd].
  - rewrite app_nil_r. reflexivity.
  - destruct (truthy t).
    + rewrite IH, (IH ([] ++ t ++ nl)). cbn [fst snd app].
      rewrite <- app_assoc. reflexivity.
    + apply IH.
  - apply IH.
  - rewrite app_nil_r. reflexivity.
Qed.

Lemma read_pdf_app d acc :
  read_pdf d acc = (acc ++ fst (read_pdf d []), snd (read_pdf d [])).
Proof.
  destruct d as [ps|msg]; cbn [read_pdf fst snd].
  - apply read_pages_app.
  - rewrite app_nil_r. reflexivity.
Qed.

(** X8.  When the pdfplumber pass does not win and the PyPDF2 pass
    completes, the text returned is what pdfplumber had read (before it
    raised, or blank text) followed by everything PyPDF2 reads: the first
    pass is not discarded, so pages both libraries could read come
    twice. *)
Theorem pdf_second_pass_appends (L : libraries) (f : uploaded_file) :
  ~ first_pass_wins L f ->
  snd (read_pdf (PyPDF2_PdfReader L (data f)) []) = None ->
  fst (_extract_from_pdf L f)
  = Ok (fst (first_pass L f)
        ++ fst (read_pdf (PyPDF2_PdfReader L (data f)) [])).
Proof.
  intros Hw Hs.
  assert (second_pass L f
          = (fst (first_pass L f)
             ++ fst (read_pdf (PyPDF2_PdfReader L (data f)) []), None)) as E.
  { unfold second_pass. rewrite read_pdf_app, Hs. reflexivity. }
  pose proof (first_pass_wins_iff L f) as W.
  rewrite pdf_cases, E.
  destruct (snd (first_pass L f)) as [e1|],
           (truthy (strip (fst (first_pass L f))));
    cbn [fst snd]; try reflexivity.
  exfalso. apply Hw, W. split; reflexivity.
Qed.

Lemma pdf_second_pass_appends_witness :
  fst (_extract_from_pdf half_read_pdf pdf_upload)
  = Ok (T "Page one" ++ nl ++ T "Page one" ++ nl ++ T "Page two" ++ nl).
Proof.
  refine (eq_trans (pdf_second_pass_appends half_read_pdf pdf_upload _ _) _).
  - intros [H _]. vm_compute in H. discriminate.
  - vm_compute. reflexivity.
  - vm_compute. reflexivity.
Defined.

(** *** Plain text *)

Lemma ascii_utf8 (content : list byte) :
  Forall (fun b => Byte.to_N b < 128) content ->
  decode utf_8 content = Some (values content).
Proof.
  unfold decode, values.
  induction 1 as [|b content Hb _ IH]; cbn [List.map utf8_fold];
    [reflexivity|].
  apply N.ltb_lt in Hb. rewrite Hb, IH. reflexivity.
Qed.

(** X9.  A plain-text file of ASCII bytes is extracted unchanged: every
    character of the text is the byte at the same place of the file. *)
Theorem ascii_text_extracted_unchanged (f : uploaded_file) :
  Forall (fun b => Byte.to_N b < 128) (data f) ->
  fst (_extract_from_txt f) = Ok (List.map Byte.to_N (data f)).
Proof.
  intros H. rewrite plain_text_utf8_or_latin1, (ascii_utf8 _ H). reflexivity.
Qed.

Lemma ascii_text_extracted_unchanged_witness :
  fst (_extract_from_txt text_upload) = Ok (T "Jane").
Proof.
  refine (eq_trans (ascii_text_extracted_unchanged text_upload _) _).
  - repeat constructor.
  - reflexivity.
Defined.

(** X10.  An upload whose media type selects the plain-text decoder never
    makes [extract_content] fail: the result is the UTF-8 decoding of the
    bytes when they are well-formed UTF-8 and their Latin-1 decoding
    otherwise, so the encodings cp1252 and iso-8859-1 and the permissive
    decoding are never reached. *)
Theorem plain_text_upload_never_fails (L : libraries) (f : uploaded_file) :
  contains (T "application/pdf") (type_ f) = false ->
  contains (T "wordprocessingml") (type_ f)
  || contains (T "docx") (type_ f) = false ->
  contains (T "text/plain") (type_ f) = true ->
  extract_content L f
  = (Ok match decode utf_8 (data f) with
        | Some text => text
        | None => List.map Byte.to_N (data f)
        end,
     [Info (T "Processing file type: " ++ type_ f); Called bytes_decode]).
Proof.
  intros H1 H2 H3. unfold extract_content. cbv zeta. rewrite H1, H2, H3.
  unfold _extract_from_txt, encodings. cbn [try_encodings].
  destruct (decode utf_8 (data f)); reflexivity.
Qed.

Lemma plain_text_upload_never_fails_witness :
  extract_content corrupt_pdf text_upload
  = (Ok (T "Jane"),
     [Info (T "Processing file type: text/plain"); Called bytes_decode]).
Proof.
  refine (eq_trans (plain_text_upload_never_fails corrupt_pdf text_upload
                      _ _ _) _); vm_compute; reflexivity.
Defined.

End MoreExtractionFacts.

(** ** The upload validators *)

Module UploadFacts.

Import DocumentParser Notions ExtractionFacts MoreExtractionFacts.

Lemma len_app_zero {A} (l k : list A) :
  (len (l ++ k) =? 0)%Z = (len l =? 0)%Z && (len k =? 0)%Z.
Proof. unfold len. destruct l, k; reflexivity. Qed.

Section Upload.

Variable L : libraries.
Variable is_encrypted : list byte -> bool.
Variable format_file_size : Z -> str.

#[local] Abbreviation validate_uploaded_file :=
  (FileUpload.validate_uploaded_file L is_encrypted format_file_size).
#[local] Abbreviation validate_pdf_file :=
  (FileUpload.validate_pdf_file L is_encrypted).
#[local] Abbreviation validate_docx_file := (FileUpload.validate_docx_file L).

(** The errors of the type-specific checks. *)
Lemma accepted_iff f :
  FileUpload.valid (validate_uploaded_file f) = true
  <-> (0 < FileUpload.size f <= 10485760)%Z
      /\ type_ f ∈ FileUpload.allowed_types
      /\ (type_ f = T "application/pdf" -> validate_pdf_file f = [])
      /\ (type_ f <> T "application/pdf" ->
          contains (T "wordprocessingml") (type_ f) = true ->
          validate_docx_file f = []).
Proof.
  unfold FileUpload.validate_uploaded_file. cbv zeta.
  cbn [FileUpload.valid].
  assert (0 <= FileUpload.size f)%Z as Hs by (unfold FileUpload.size, len; lia).
  destruct (Z.gtb_spec (FileUpload.size f) (10 * 1024 * 1024)) as [Hbig|Hbig];
    destruct (Z.eqb_spec (FileUpload.size f) 0) as [Hz|Hz];
    destruct (bool_decide_reflect (type_ f ∈ FileUpload.allowed_types))
      as [Ht|Ht];
    destruct (bool_decide_reflect (type_ f = T "application/pdf")) as [Hp|Hp];
    try destruct (contains (T "wordprocessingml") (type_ f)) eqn:Hw;
    cbn [negb app]; rewrite ?len_app_zero; cbn [andb];
    try (split; [discriminate|intros (? & ? & ? & ?); try lia; contradiction]);
    try (unfold len;
         split; [intros H; repeat split; try lia; try assumption;
                 try (intros; congruence);
                 intros; destruct (validate_pdf_file f), (validate_docx_file f);
                   try reflexivity; discriminate
                |intros (? & ? & Hpdf & Hdocx);
                 rewrite ?(Hpdf Hp), ?(Hdocx Hp eq_refl); reflexivity]).
Qed.

Lemma docx_valid_iff f :
  validate_docx_file f = []
  <-> exists doc, docx_Document L (data f) = Ok doc
                  /\ docx_readable doc = true.
Proof.
  unfold FileUpload.validate_docx_file, docx_readable. cbv zeta.
  destruct (docx_Document L (data f)) as [doc|e].
  - destruct (existsb FileUpload.readable (paragraphs doc)) eqn:E1;
      cbn [negb orb].
    + split; [|reflexivity]. intros _. exists doc. rewrite E1.
      split; reflexivity.
    + destruct (existsb _ (tables doc)) eqn:E2; cbn [negb].
      * split; [|reflexivity]. intros _. exists doc. rewrite E1, E2.
        split; reflexivity.
      * split; [discriminate|]. intros (doc' & [= <-] & H).
        rewrite E1, E2 in H. discriminate.
  - split; [discriminate|]. intros (doc & H & _). discriminate.
Qed.

Lemma pdf_valid_iff f :
  validate_pdf_file f = []
  <-> exists ps, PyPDF2_PdfReader L (data f) = Pages ps
                 /\ ps <> [] /\ is_encrypted (data f) = false.
Proof.
  unfold FileUpload.validate_pdf_file.
  destruct (PyPDF2_PdfReader L (data f)) as [ps|e].
  - destruct ps as [|p ps]; cbn.
    + split; [discriminate|]. intros (ps & [= <-] & H & _). contradiction.
    + destruct (is_encrypted (data f)).
      * split; [discriminate|]. intros (ps' & _ & _ & H). discriminate.
      * split; [|reflexivity]. intros _. exists (p :: ps).
        repeat split. discriminate.
  - split; [discriminate|]. intros (ps & H & _). discriminate.
Qed.

Lemma library_of_first_call f :
  type_ f ∈ FileUpload.allowed_types ->
  first_call (extract_content L f) = library_of (type_ f)
  /\ library_of (type_ f) <> None.
Proof.
  intros H. rewrite extract_content_first_call.
  unfold FileUpload.allowed_types in H.
  repeat (apply elem_of_cons in H as [->|H]);
    [split; [vm_compute; reflexivity|vm_compute; discriminate] ..|].
  inversion H.
Qed.

(** X11.  An upload that [validate_uploaded_file] accepts is not empty, is
    at most 10 MB, and declares exactly one of the three accepted media
    types; [extract_content] then hands it to the library of that type
    (it never answers unsupported file type), and the validator of
    [validators.py] accepts it too when its name is not blank. *)
Theorem accepted_upload_is_dispatched (f : uploaded_file) :
  FileUpload.valid (validate_uploaded_file f) = true ->
  (0 < FileUpload.size f <= 10485760)%Z
  /\ type_ f ∈ FileUpload.allowed_types
  /\ first_call (extract_content L f) = library_of (type_ f)
  /\ library_of (type_ f) <> None
  /\ (forall file_name,
        strip file_name <> [] ->
        Validators.valid
          (Validators.validate_file_upload (data f) (type_ f) file_name)
        = true).
Proof.
  intros H. apply accepted_iff in H as (Hs & Ht & _).
  destruct (library_of_first_call f Ht) as [Hc Hl].
  repeat split; try lia; try assumption.
  intros file_name Hn.
  unfold Validators.validate_file_upload. cbv zeta.
  unfold FileUpload.size in Hs.
  destruct (Z.gtb_spec (len (data f)) (10 * 1024 * 1024)); [lia|].
  change Validators.allowed_types with FileUpload.allowed_types.
  rewrite (bool_decide_eq_true_2 _ Ht). cbn [negb].
  assert (truthy file_name = true) as ->
    by (destruct file_name; [contradiction Hn|]; reflexivity).
  assert ((len (strip file_name) =? 0)%Z = false) as ->
    by (unfold len; destruct (strip file_name); [contradiction|reflexivity]).
  cbn [negb orb].
  destruct (Z.eqb_spec (len (data f)) 0); [lia|]. reflexivity.
Qed.

(** X12.  A DOCX upload that [validate_uploaded_file] accepts is always
    extracted: [extract_content] returns text, and the text is not
    blank. *)
Theorem accepted_docx_has_text (f : uploaded_file) :
  type_ f
  = T "application/vnd.openxmlformats-officedocument.wordprocessingml.document" ->
  FileUpload.valid (validate_uploaded_file f) = true ->
  exists text, fst (extract_content L f) = Ok text /\ strip text <> [].
Proof.
  intros Ht H. apply accepted_iff in H as (_ & _ & _ & Hd).
  rewrite Ht in Hd.
  assert (validate_docx_file f = []) as Hv.
  { apply Hd; [vm_compute; discriminate|vm_compute; reflexivity]. }
  apply docx_valid_iff in Hv as (doc & Hdoc & Hr).
  destruct (MoreExtractionFacts.docx_opened L f doc Hdoc)
    as (text & Htext & Hblank).
  exists text. split.
  - unfold extract_content. cbv zeta. rewrite Ht.
    change (contains (T "application/pdf") _) with false.
    change (contains (T "wordprocessingml") _ || contains (T "docx") _)
      with true.
    cbn iota. rewrite <- Ht.
    destruct (_extract_from_docx L f) as [[t|e] log];
      cbn [fst] in *; congruence.
  - intros B. apply Hblank in B. congruence.
Qed.

(** X13.  A PDF upload that [validate_uploaded_file] accepts can be opened
    by PyPDF2, has at least one page and is not encrypted; if none of its
    pages raises when PyPDF2 reads it, [extract_content] does not fail. *)
Theorem accepted_pdf_is_readable (f : uploaded_file) :
  type_ f = T "application/pdf" ->
  FileUpload.valid (validate_uploaded_file f) = true ->
  exists ps, PyPDF2_PdfReader L (data f) = Pages ps
    /\ ps <> []
    /\ is_encrypted (data f) = false
    /\ (forallb page_reads ps = true ->
        exists text, fst (extract_content L f) = Ok text).
Proof.
  intros Ht H. apply accepted_iff in H as (_ & _ & Hp & _).
  pose proof (Hp Ht) as Hv.
  apply pdf_valid_iff in Hv as (ps & Hps & Hne & Henc).
  exists ps. repeat split; try assumption.
  intros Hall.
  assert (snd (second_pass L f) = None) as Hsnd.
  { unfold second_pass. rewrite Hps. cbn [read_pdf].
    generalize (fst (first_pass L f)). clear -Hall.
    induction ps as [|[[t|]|msg] ps IH]; intros acc; cbn [read_pages snd];
      cbn [forallb page_reads andb] in Hall; auto. discriminate. }
  unfold extract_content. cbv zeta. rewrite Ht.
  change (contains (T "application/pdf") (T "application/pdf")) with true.
  cbn iota. rewrite pdf_cases, Hsnd.
  destruct (snd (first_pass L f)), (truthy (strip (fst (first_pass L f))));
    cbn; eauto.
Qed.

End Upload.

Lemma accepted_upload_is_dispatched_witness :
  (0 < FileUpload.size text_upload <= 10485760)%Z
  /\ type_ text_upload ∈ FileUpload.allowed_types
  /\ first_call (extract_content corrupt_pdf text_upload)
     = library_of (type_ text_upload)
  /\ library_of (type_ text_upload) <> None
  /\ (forall file_name,
        strip file_name <> [] ->
        Validators.valid
          (Validators.validate_file_upload (data text_upload)
             (type_ text_upload) file_name)
        = true).
Proof.
  refine (accepted_upload_is_dispatched corrupt_pdf (fun _ => false)
            (fun _ => []) text_upload _).
  vm_compute. reflexivity.
Defined.

Lemma accepted_docx_has_text_witness :
  exists text, fst (extract_content one_paragraph_docx docx_upload) = Ok text
               /\ strip text <> [].
Proof.
  refine (accepted_docx_has_text one_paragraph_docx (fun _ => false)
            (fun _ => []) docx_upload _ _);
    vm_compute; reflexivity.
Defined.

Lemma accepted_pdf_is_readable_witness :
  exists ps, PyPDF2_PdfReader one_page_pdf (data pdf_upload) = Pages ps
    /\ ps <> []
    /\ false = false
    /\ (forallb page_reads ps = true ->
        exists text, fst (extract_content one_page_pdf pdf_upload) = Ok text).
Proof.
  refine (accepted_pdf_is_readable one_page_pdf (fun _ => false)
            (fun _ => []) pdf_upload _ _);
    vm_compute; reflexivity.
Defined.

(** *** The preview *)

Lemma slice_to_take (n : Z) (s : str) :
  (0 <= n)%Z -> FileUpload.slice_to n s = take (Z.to_nat n) s.
Proof.
  intros H. unfold FileUpload.slice_to.
  destruct (Z.leb_spec 0 n); [reflexivity|lia].
Qed.

(** X14.  The preview of a plain-text upload is its permissive UTF-8
    decoding when that has at most [max_chars] characters, and otherwise
    its first [max_chars] characters followed by three dots; it is never
    longer than [max_chars + 3] characters. *)
Theorem preview_is_bounded (f : uploaded_file) (max_chars : Z) :
  type_ f = T "text/plain" ->
  (0 <= max_chars)%Z ->
  ((len (decode_ignore (data f)) <= max_chars)%Z ->
     FileUpload.get_file_preview f max_chars = decode_ignore (data f))
  /\ ((max_chars < len (decode_ignore (data f)))%Z ->
      FileUpload.get_file_preview f max_chars
      = take (Z.to_nat max_chars) (decode_ignore (data f)) ++ T "...")
  /\ (len (FileUpload.get_file_preview f max_chars) <= max_chars + 3)%Z.
Proof.
  intros Ht Hm. unfold FileUpload.get_file_preview. cbv zeta.
  rewrite (bool_decide_eq_true_2 _ Ht), (slice_to_take _ _ Hm).
  set (content := decode_ignore (data f)).
  unfold len.
  destruct (Z.gtb_spec (Z.of_nat (length content)) max_chars) as [Hgt|Hle].
  - split; [lia|]. split; [reflexivity|].
    rewrite length_app, length_take. change (length (T "...")) with 3%nat.
    lia.
  - split; [|split; [lia|]].
    + intros _. rewrite app_nil_r. apply take_ge. lia.
    + rewrite app_nil_r, length_take. lia.
Qed.

Lemma preview_is_bounded_witness :
  FileUpload.get_file_preview text_upload 3 = T "Jan...".
Proof.
  refine (eq_trans
            (proj1 (proj2 (preview_is_bounded text_upload 3 eq_refl _)) _) _).
  - lia.
  - vm_compute. reflexivity.
  - vm_compute. reflexivity.
Defined.

End UploadFacts.

(** ** More on the validators *)

Module InputFacts.

Import Validators Notions.

Lemma reject_invalid msg r : valid (reject msg r) = false.
Proof. reflexivity. Qed.

(** X15.  [validate_file_upload] accepts a file exactly when it is not
    empty, is at most 10 MB, declares one of the three accepted media
    types and has a name that is not blank; and it accepts exactly when
    it reports no error. *)
Theorem file_upload_valid_iff (file_data : list byte) (file_type file_name : str) :
  (valid (validate_file_upload file_data file_type file_name) = true
   <-> (0 < len file_data <= 10485760)%Z
       /\ file_type ∈ allowed_types
       /\ strip file_name <> [])
  /\ (valid (validate_file_upload file_data file_type file_name) = true
      <-> errors (validate_file_upload file_data file_type file_name) = []).
Proof.
  unfold validate_file_upload. cbv zeta.
  assert (0 <= len file_data)%Z as Hs by (unfold len; lia).
  assert (negb (truthy file_name) || (len (strip file_name) =? 0)%Z = true
          <-> strip file_name = []) as Hn
    by apply ValidatorFacts.blank_guard.
  destruct (Z.gtb_spec (len file_data) (10 * 1024 * 1024)) as [Hbig|Hbig];
    destruct (bool_decide_reflect (file_type ∈ allowed_types)) as [Ht|Ht];
    destruct (negb (truthy file_name) || (len (strip file_name) =? 0)%Z)
      eqn:Hb;
    destruct (Z.eqb_spec (len file_data) 0) as [Hz|Hz];
    cbn [negb valid errors reject app];
    (split; split);
    try discriminate; try reflexivity;
    try (intros (? & ? & ?); try lia; try contradiction;
         exfalso; apply H1, Hn; reflexivity);
    try (intros _; repeat split; try lia; try assumption;
         intros B; apply Hn in B; discriminate);
    try (intros H; exfalso; destruct (T _) in H; discriminate).
Qed.

Lemma user_input_shape (isdigit : N -> bool) (input_data : gmap string str) :
  validate_user_input isdigit input_data
  = UploadValidation true []
      (flag (field_missing input_data "desired_role")
            "Consider filling out the desired role field"
       ++ flag (match input_data !! "expected_salary"%string with
                | Some v => truthy (strip v)
                            && negb (existsb isdigit (strip v))
                | None => false
                end)
            "Salary field should contain numeric values").
Proof.
  unfold validate_user_input, required_fields. cbv zeta. cbn [fold_left].
  change (T "Consider filling out the " ++ replace 95 32 (T "desired_role")
          ++ T " field")
    with (T "Consider filling out the desired role field").
  destruct (field_missing input_data "desired_role");
    (destruct (input_data !! "expected_salary"%string) as [[|c v]|];
     cbn [truthy]; [reflexivity| |reflexivity]);
    destruct (truthy (strip (c :: v)) && negb (existsb isdigit (strip (c :: v))));
    reflexivity.
Qed.

(** X16.  [validate_user_input] never rejects a questionnaire: the result
    is always valid, with no error and at most two warnings.  It warns
    about the desired role exactly when the field is missing or blank, and
    about the salary exactly when the field is present, not blank, and
    has no digit. *)
Theorem user_input_never_invalid
    (isdigit : N -> bool) (input_data : gmap string str) :
  valid (validate_user_input isdigit input_data) = true
  /\ errors (validate_user_input isdigit input_data) = []
  /\ (length (warnings (validate_user_input isdigit input_data)) <= 2)%nat
  /\ (T "Consider filling out the desired role field"
        ∈ warnings (validate_user_input isdigit input_data)
      <-> input_data !! "desired_role"%string = None
          \/ exists v, input_data !! "desired_role"%string = Some v
                       /\ strip v = [])
  /\ (T "Salary field should contain numeric values"
        ∈ warnings (validate_user_input isdigit input_data)
      <-> exists v, input_data !! "expected_salary"%string = Some v
                    /\ strip v <> []
                    /\ Forall (fun c => isdigit c = false) (strip v)).
Proof.
  rewrite user_input_shape. cbn [valid errors warnings].
  assert (T "Consider filling out the desired role field"
          <> T "Salary field should contain numeric values") as Hne
    by (intros H; apply (f_equal length) in H; vm_compute in H;
        discriminate).
  assert (forall (b : bool) w x, x ∈ flag b w <-> b = true /\ x = T w) as F.
  { intros [] w x; unfold flag; rewrite ?elem_of_cons, ?elem_of_nil;
      intuition congruence. }
  assert (forall (b : bool) w, (length (flag b w) <= 1)%nat) as Fl
    by (intros [] w; simpl; lia).
  assert (forall s : str, truthy s = true <-> s <> []) as Tr
    by (intros []; simpl; split; congruence).
  split; [reflexivity|]. split; [reflexivity|].
  split.
  { rewrite length_app.
    pose proof (Fl (field_missing input_data "desired_role")
                   "Consider filling out the desired role field").
    pose proof (Fl (match input_data !! "expected_salary"%string with
                    | Some v => truthy (strip v)
                                && negb (existsb isdigit (strip v))
                    | None => false
                    end) "Salary field should contain numeric values").
    lia. }
  rewrite !elem_of_app, !F.
  split.
  - unfold field_missing.
    destruct (input_data !! "desired_role"%string) as [v|].
    + split.
      * intros [[H _]|[_ H]]; [|contradiction].
        right. exists v. split; [reflexivity|].
        destruct (strip v); [reflexivity|discriminate].
      * intros [H|(w & [= <-] & H)]; [discriminate|].
        left. rewrite H. split; reflexivity.
    + split; [auto|]. intros _. left. split; reflexivity.
  - destruct (input_data !! "expected_salary"%string) as [v|].
    + split.
      * intros [[_ H]|[H _]]; [symmetry in H; contradiction|].
        apply andb_true_iff in H as [H1 H2].
        exists v. split; [reflexivity|]. split; [apply Tr, H1|].
        apply negb_true_iff in H2.
        apply Forall_forall. intros c Hc.
        destruct (isdigit c) eqn:E; [|reflexivity].
        assert (existsb isdigit (strip v) = true) as X
          by (apply existsb_exists; exists c; split;
              [apply list_elem_of_In, Hc|exact E]).
        congruence.
      * intros (w & [= <-] & H1 & H2). right. split; [|reflexivity].
        apply andb_true_iff. split; [apply Tr, H1|].
        apply negb_true_iff.
        destruct (existsb isdigit (strip v)) eqn:E; [|reflexivity].
        apply existsb_exists in E as (c & Hc & E).
        apply list_elem_of_In in Hc.
        rewrite Forall_forall in H2. rewrite (H2 c Hc) in E. discriminate.
    + split.
      * intros [[_ H]|[H _]]; [symmetry in H; contradiction|discriminate].
      * intros (w & [=] & _).
Qed.

(** X17.  [validate_content_extraction] declares content invalid exactly
    when it is empty or blank; invalid content gets the score 0, one
    issue and no suggestion, and valid content gets no issue.  Valid
    content within the tables gets at most three suggestions, which depend
    on the score being below 50, on fewer than two section words being
    present, and on no email being found. *)
Theorem content_validity (content : str) :
  (is_valid (validate_content_extraction content) = true
   <-> strip content <> [])
  /\ (strip content = [] ->
      validate_content_extraction content
      = ContentValidation false 0 [T "No content extracted from file"] [])
  /\ (strip content <> [] ->
      issues (validate_content_extraction content) = [])
  /\ (in_tables content = true ->
      strip content <> [] ->
      suggestions (validate_content_extraction content)
      = flag (quality_score (validate_content_extraction content) <? 50)%Z
          "Content quality seems low - ensure the file is not corrupted"
        ++ flag (found_sections content <? 2)%Z
             "Consider using a more structured resume format"
        ++ flag (negb (found email_pattern content))
             "Make sure your contact email is clearly visible").
Proof.
  pose proof (ValidatorFacts.blank_guard content) as G.
  unfold validate_content_extraction.
  destruct (negb (truthy content) || (len (strip content) =? 0)%Z) eqn:E.
  - assert (strip content = []) as B by (apply G; reflexivity).
    cbn [is_valid]. repeat split; try discriminate; try congruence.
  - assert (strip content <> []) as B
      by (intros B; apply G in B; discriminate).
    cbv zeta. cbn [is_valid issues suggestions quality_score].
    repeat split; try congruence.
Qed.

Lemma content_validity_witness :
  suggestions (validate_content_extraction short_note)
  = [T "Content quality seems low - ensure the file is not corrupted";
     T "Consider using a more structured resume format";
     T "Make sure your contact email is clearly visible"]
  /\ suggestions (validate_content_extraction bulleted_resume) = [].
Proof.
  split.
  - refine (eq_trans
              (proj2 (proj2 (proj2 (content_validity short_note))) _ _) _);
      vm_compute; congruence.
  - refine (eq_trans
              (proj2 (proj2 (proj2 (content_validity bulleted_resume))) _ _)
              _);
      vm_compute; congruence.
Defined.

End InputFacts.

(** ** The enhancement without the model *)

Module EnhancerFacts.

Import DocumentParser Notions EntityFacts.

Lemma filter_three {A} (p q : A -> bool) (l : list A) :
  Forall (fun x => p x && q x = false) l ->
  (length (List.filter p l) + length (List.filter q l)
   + length (List.filter (fun x => negb (p x) && negb (q x)) l))%nat
  = length l.
Proof.
  induction 1 as [|x l Hx _ IH]; simpl; [reflexivity|].
  destruct (p x), (q x); simpl in *; try discriminate; lia.
Qed.

Lemma other_filter skills :
  AIEnhancer.industry_specific (AIEnhancer._fallback_skills_categorization skills)
  = List.filter (fun s => negb (AIEnhancer.mentions AIEnhancer.technical_keywords s)
                          && negb (AIEnhancer.mentions AIEnhancer.soft_keywords s))
                skills.
Proof.
  unfold AIEnhancer._fallback_skills_categorization.
  cbn [AIEnhancer.industry_specific].
  apply List.filter_ext_in. intros s Hs.
  f_equal; f_equal.
  - destruct (AIEnhancer.mentions AIEnhancer.technical_keywords s) eqn:E.
    + apply bool_decide_eq_true_2, list_elem_of_In, filter_In. auto.
    + apply bool_decide_eq_false_2. rewrite list_elem_of_In, filter_In.
      intros [_ H]. congruence.
  - destruct (AIEnhancer.mentions AIEnhancer.soft_keywords s) eqn:E.
    + apply bool_decide_eq_true_2, list_elem_of_In, filter_In. auto.
    + apply bool_decide_eq_false_2. rewrite list_elem_of_In, filter_In.
      intros [_ H]. congruence.
Qed.

(** X18.  The categorization without the model puts every skill in a
    category: a skill is technical, a soft skill, or industry-specific,
    and an industry-specific skill is neither technical nor soft.  On the
    skills of a parsed record no skill is both technical and soft, so the
    sizes of the three categories add up to the number of skills. *)
Theorem skills_are_categorized
    (list_set : list str -> list str) (self : parser) (text : str)
    (Hset : forall l, list_set l ≡ₚ remove_dups l) :
  (forall skills s,
     s ∈ skills
     <-> s ∈ AIEnhancer.technical (AIEnhancer._fallback_skills_categorization skills)
         \/ s ∈ AIEnhancer.soft_skills
                  (AIEnhancer._fallback_skills_categorization skills)
         \/ s ∈ AIEnhancer.industry_specific
                  (AIEnhancer._fallback_skills_categorization skills))
  /\ (forall skills s,
        s ∈ AIEnhancer.industry_specific
              (AIEnhancer._fallback_skills_categorization skills) ->
        (s ∉ AIEnhancer.technical
               (AIEnhancer._fallback_skills_categorization skills))
        /\ (s ∉ AIEnhancer.soft_skills
                 (AIEnhancer._fallback_skills_categorization skills)))
  /\ exists e, extract_entities list_set self text = Ok e
       /\ (forall s,
             s ∈ AIEnhancer.technical
                   (AIEnhancer._fallback_skills_categorization (skills e)) ->
             s ∉ AIEnhancer.soft_skills
                   (AIEnhancer._fallback_skills_categorization (skills e)))
       /\ (length (AIEnhancer.technical
                     (AIEnhancer._fallback_skills_categorization (skills e)))
           + length (AIEnhancer.soft_skills
                       (AIEnhancer._fallback_skills_categorization (skills e)))
           + length (AIEnhancer.industry_specific
                       (AIEnhancer._fallback_skills_categorization (skills e))))%nat
          = length (skills e).
Proof.
  split; [|split].
  - intros skills s. rewrite other_filter.
    unfold AIEnhancer._fallback_skills_categorization.
    cbn [AIEnhancer.technical AIEnhancer.soft_skills].
    rewrite !list_elem_of_In, !filter_In.
    destruct (AIEnhancer.mentions AIEnhancer.technical_keywords s),
      (AIEnhancer.mentions AIEnhancer.soft_keywords s); cbn; tauto.
  - intros skills s. rewrite other_filter.
    unfold AIEnhancer._fallback_skills_categorization.
    cbn [AIEnhancer.technical AIEnhancer.soft_skills].
    rewrite !list_elem_of_In, !filter_In.
    destruct (AIEnhancer.mentions AIEnhancer.technical_keywords s),
      (AIEnhancer.mentions AIEnhancer.soft_keywords s); cbn;
      intros [? ?]; split; intros [? ?]; discriminate.
  - destruct (extract_entities_skills list_set self text) as (e & He & Hs).
    exists e. split; [exact He|].
    assert (Forall (fun s => AIEnhancer.mentions AIEnhancer.technical_keywords s
                             && AIEnhancer.mentions AIEnhancer.soft_keywords s
                             = false) (skills e)) as D.
    { apply Forall_forall. intros s Hin.
      rewrite Hs, (list_set_found list_set text Hset) in Hin.
      apply found_skills_iff in Hin as [Hin _].
      revert s Hin. apply Forall_forall.
      refine (bool_decide_unpack _ _). vm_compute. exact I. }
    split.
    + intros s. unfold AIEnhancer._fallback_skills_categorization.
      cbn [AIEnhancer.technical AIEnhancer.soft_skills].
      rewrite !list_elem_of_In, !filter_In. intros [Hin Ht] [_ Hs'].
      rewrite Forall_forall in D.
      apply list_elem_of_In, D in Hin. rewrite Ht, Hs' in Hin. discriminate.
    + rewrite other_filter.
      unfold AIEnhancer._fallback_skills_categorization.
      cbn [AIEnhancer.technical AIEnhancer.soft_skills].
      apply filter_three.
      apply List.Forall_forall. intros s Hin.
      rewrite Forall_forall in D. apply D, list_elem_of_In, Hin.
Qed.

Lemma skills_are_categorized_witness :
  exists e, extract_entities remove_dups no_models
              (T "Python, SQL, Leadership and Docker") = Ok e
    /\ (forall s,
          s ∈ AIEnhancer.technical
                (AIEnhancer._fallback_skills_categorization (skills e)) ->
          s ∉ AIEnhancer.soft_skills
                (AIEnhancer._fallback_skills_categorization (skills e)))
    /\ (length (AIEnhancer.technical
                  (AIEnhancer._fallback_skills_categorization (skills e)))
        + length (AIEnhancer.soft_skills
                    (AIEnhancer._fallback_skills_categorization (skills e)))
        + length (AIEnhancer.industry_specific
                    (AIEnhancer._fallback_skills_categorization (skills e))))%nat
       = length (skills e).
Proof.
  exact (proj2 (proj2 (skills_are_categorized remove_dups no_models
                         (T "Python, SQL, Leadership and Docker")
                         (fun l => Permutation_refl (remove_dups l))))).
Defined.

Lemma enhanced_parser_entries (l : list experience_entry) :
  AIEnhancer._fallback_experience_enhancement (List.map as_dict l)
  = List.map (fun x => AIEnhancer.EnhancedEntry (role x) (company x)
                         (enhanced_lines (role x))) l.
Proof.
  unfold AIEnhancer._fallback_experience_enhancement.
  rewrite List.map_map. apply List.map_ext. intros [r c].
  unfold AIEnhancer.get, as_dict, enhanced_lines. cbn [role company].
  rewrite lookup_insert_eq, lookup_insert_ne, lookup_insert_eq
    by discriminate.
  reflexivity.
Qed.

(** X19.  The experience enhancement without the model keeps the
    entries of a parsed record: one enhanced entry per entry, in order,
    with its role and company, and a first description line naming that
    role.  On a text within the tables these are the matches of the
    experience patterns.  An entry without a role and a company gets the
    placeholders Professional and Organization, and its description
    speaks of professional duties. *)
Theorem experience_enhancement_keeps_entries
    (list_set : list str -> list str) (self : parser) (text : str) :
  (forall l : list experience_entry,
     AIEnhancer._fallback_experience_enhancement (List.map as_dict l)
     = List.map (fun x => AIEnhancer.EnhancedEntry (role x) (company x)
                            (enhanced_lines (role x))) l)
  /\ (in_tables text = true ->
      exists e, extract_entities list_set self text = Ok e
        /\ AIEnhancer._fallback_experience_enhancement
             (List.map as_dict (experience e))
           = List.map (fun x => AIEnhancer.EnhancedEntry (role x) (company x)
                                  (enhanced_lines (role x)))
                      (found_experience text))
  /\ (forall d rest,
        d !! "role"%string = None -> d !! "company"%string = None ->
        AIEnhancer._fallback_experience_enhancement (d :: rest)
        = AIEnhancer.EnhancedEntry (T "Professional") (T "Organization")
            (enhanced_lines (T "professional duties"))
          :: AIEnhancer._fallback_experience_enhancement rest).
Proof.
  split; [exact enhanced_parser_entries|]. split.
  - intros _. rewrite extract_entities_eq. eexists. split; [reflexivity|].
    destruct (regex_fields list_set text (learned self text))
      as (_ & _ & _ & E & _).
    rewrite enhanced_parser_entries, E, learned_experience. reflexivity.
  - intros d rest Hr Hc. unfold AIEnhancer._fallback_experience_enhancement.
    cbn [List.map]. unfold AIEnhancer.get. rewrite Hr, Hc. reflexivity.
Qed.

Lemma experience_enhancement_keeps_entries_witness :
  exists e, extract_entities remove_dups no_models dashed_resume = Ok e
    /\ List.map (fun x => (AIEnhancer.role x, AIEnhancer.company x))
         (AIEnhancer._fallback_experience_enhancement
            (List.map as_dict (experience e)))
       = [(T "Developer", T "Initech"); (T "Acme Corp", T "Manager")].
Proof.
  destruct (proj1 (proj2 (experience_enhancement_keeps_entries
                            remove_dups no_models dashed_resume)))
    as (e & He & Hx).
  { vm_compute. reflexivity. }
  exists e. split; [exact He|].
  rewrite Hx. vm_compute. reflexivity.
Defined.

End EnhancerFacts.
